(** * Forward (strike-resetting) option engines and the Monte Carlo European pricer

    A shallow embedding of
      - [ql/PricingEngines/forwardengines.hpp]: [ForwardOptionArguments],
        [ForwardEngine] and [ForwardPerformanceEngine];
      - [ql/Pricers/mceuropean.cpp]: the constructor of [McEuropean].

    A C++ [double] is a binary64 float ([PrimFloat.float]) with the IEEE
    operations and comparisons.  Methods that mutate objects are state
    transformers over the objects they reach; a failed [QL_REQUIRE] is a
    thrown error carrying its message and the state at the throw;
    dereferencing a null pointer, which has no defined behaviour, is a
    third kind of outcome.  A division of doubles is the IEEE division:
    by zero it gives an infinity or a NaN, and the method goes on.

    The decorator holds raw pointers into the engine it wraps.  The
    wrapped engine lives in the decorator's state, and the two pointers
    are either null or point to its [arguments_] and [results_] members,
    so that a write through [originalArguments_] is a write to the wrapped
    engine.

    Classes of the library that the two files only use are interfaces,
    given as type classes: dates, day counters, term structures and
    volatility surfaces ([Market]); the template parameters
    [ArgumentsType] and [ResultsType] ([TemplateParameters]); the wrapped
    engine ([PricingEngine]); the path generator, the path pricer and the
    Monte Carlo model ([MonteCarlo]).  Handles to curves and surfaces are
    taken as linked, and their members as returning. *)

From Stdlib Require Import Floats ZArith String List Bool Lia.
Import ListNotations.

Local Open Scope float_scope.

(* Decimal literals denote the nearest binary64 value, as in C++. *)
Set Warnings "-inexact-float".

(** ** Numbers *)

Definition double := float.
Definition Time := double.
Definition Rate := double.

(** ** Collaborators of the forward engines *)

(** Dates, day counters, term structures and volatility surfaces, with
    the members the engines call.  [Null_double] and [Null_Date] are what
    [Null<double>()] and [Null<Date>()] convert to. *)
Class Market := {
  Date : Type;
  Date_eq_dec : forall d1 d2 : Date, {d1 = d2} + {d1 <> d2};
  Null_Date : Date;
  Null_double : double;
  DayCounter : Type;
  yearFraction : DayCounter -> Date -> Date -> Time;
  TermStructure : Type;
  dayCounter : TermStructure -> DayCounter;
  referenceDate : TermStructure -> Date;
  discount : TermStructure -> Date -> double;
  zeroYield : TermStructure -> Date -> Rate;
  ImpliedTermStructure : TermStructure -> Date -> Date -> TermStructure;
  BlackVolTermStructure : Type;
  ImpliedVolTermStructure :
    BlackVolTermStructure -> Date -> BlackVolTermStructure;
  Option_Type : Type;
  Exercise_Type : Type
}.

(** [d1 != d2] on dates. *)
Definition Date_neqb `{Market} (d1 d2 : Date) : bool :=
  if Date_eq_dec d1 d2 then false else true.

(** ** Errors *)

(** The outcome of a [const] check: it returns, or a [QL_REQUIRE] threw
    an error with the given message. *)
Inductive checked : Type :=
| Passed
| Failed (what : string).

Definition QL_REQUIRE (condition : bool) (what : string) (rest : checked)
  : checked :=
  if condition then rest else Failed what.

Notation "'REQUIRE' c 'ELSE' w ;; k" := (QL_REQUIRE c w k)
  (at level 10, c at level 99, w at level 0, k at level 200, format "'[v' 'REQUIRE'  c  'ELSE'  w  ;; '/' k ']'").

(** ** Arguments and results *)

Section Data.
Context `{Market}.

(** The members of the template parameter [ArgumentsType] that the
    forward engines read and write. *)
Record ArgumentsType : Type := {
  type : Option_Type;
  underlying : double;
  strike : double;
  dividendTS : TermStructure;
  riskFreeTS : TermStructure;
  volTS : BlackVolTermStructure;
  exerciseType : Exercise_Type;
  stoppingTimes : list Time;
  maturity : Time
}.

(** [ForwardOptionArguments<ArgumentsType>] derives from
    [ArgumentsType] and adds two members. *)
Record ForwardOptionArguments : Type := {
  base :> ArgumentsType;
  moneyness : double;
  resetDate : Date
}.

(** The members of the template parameter [ResultsType] that the
    forward engines read and write. *)
Record ResultsType : Type := {
  value : double;
  delta : double;
  gamma : double;
  theta : double;
  vega : double;
  rho : double;
  dividendRho : double;
  strikeSensitivity : double
}.

(** The constructor of [ForwardOptionArguments]. *)
Definition ForwardOptionArguments_new (b : ArgumentsType)
  : ForwardOptionArguments :=
  {| base := b; moneyness := Null_double; resetDate := Null_Date |}.

End Data.

(** Members of the template parameters that the engines call: the
    default constructors and [ArgumentsType::validate()]. *)
Class TemplateParameters `{Market} := {
  ArgumentsType_new : ArgumentsType;
  ResultsType_new : ResultsType;
  ArgumentsType_validate : ArgumentsType -> checked
}.

Section Validate.
Context `{TemplateParameters}.

(** [ForwardOptionArguments<ArgumentsType>::validate()] *)
Definition ForwardOptionArguments_validate (a : ForwardOptionArguments)
  : checked :=
  match ArgumentsType_validate a with
  | Failed what => Failed what
  | Passed =>
    REQUIRE negb (moneyness a =? Null_double)
      ELSE "ForwardOptionArguments::validate() : null moneyness given" ;;
    REQUIRE 0 <? moneyness a
      ELSE "ForwardOptionArguments::validate() : negative or zero moneyness given" ;;
    REQUIRE Date_neqb (resetDate a) Null_Date
      ELSE "ForwardOptionArguments::validate() : null reset date given" ;;
    let resetTime :=
      yearFraction (dayCounter (riskFreeTS a))
                   (referenceDate (riskFreeTS a)) (resetDate a) in
    REQUIRE 0 <=? resetTime
      ELSE "ForwardOptionArguments::validate() : negative reset time given" ;;
    REQUIRE resetTime <=? maturity a
      ELSE "ForwardOptionArguments::validate() : reset time greater than maturity" ;;
    Passed
  end.

End Validate.

(** ** Methods that mutate *)

(** What has no defined behaviour in the two files. *)
Inductive undefined_behaviour : Type :=
| null_pointer_dereference.

(** The outcome of a method run on the state [s0] of the objects it can
    reach: it returns [a] and leaves the state [s]; or it throws an error,
    leaving the state [s] reached at the throw; or it has no defined
    behaviour. *)
Inductive outcome (S A : Type) : Type :=
| Returns (a : A) (s : S)
| Throws (what : string) (s : S)
| Undefined (ub : undefined_behaviour).

Arguments Returns {S A} a s.
Arguments Throws {S A} what s.
Arguments Undefined {S A} ub.

Definition M (S A : Type) : Type := S -> outcome S A.

Definition ret {S A} (a : A) : M S A := fun s => Returns a s.

Definition bind {S A B} (m : M S A) (k : A -> M S B) : M S B :=
  fun s =>
    match m s with
    | Returns a s' => k a s'
    | Throws what s' => Throws what s'
    | Undefined ub => Undefined ub
    end.

Definition gets {S A} (f : S -> A) : M S A := fun s => Returns (f s) s.
Definition modify {S} (f : S -> S) : M S unit := fun s => Returns tt (f s).
Definition throw {S A} (what : string) : M S A := fun s => Throws what s.
Definition undefined {S A} (ub : undefined_behaviour) : M S A :=
  fun _ => Undefined ub.

(** A [const] check run as a statement. *)
Definition run_checked {S} (c : checked) : M S unit :=
  match c with
  | Passed => ret tt
  | Failed what => throw what
  end.

(** A method of a sub-object run on the object that holds it. *)
Definition on_member {S T A} (get : S -> T) (set : T -> S -> S) (m : M T A)
  : M S A :=
  fun s =>
    match m (get s) with
    | Returns a t => Returns a (set t s)
    | Throws what t => Throws what (set t s)
    | Undefined ub => Undefined ub
    end.

Declare Scope method_scope.
Delimit Scope method_scope with method.
Notation "x <- m ;; k" := (bind m (fun x => k))
  (at level 61, m at next level, right associativity) : method_scope.
Notation "m ;; k" := (bind m (fun _ => k))
  (at level 61, right associativity) : method_scope.

(** ** The wrapped engine *)

Section Engines.
Context `{Market}.

(** An engine [GenericEngine<ArgumentsType, ResultsType>]: its
    [arguments_] and [results_] members and the state [State] that its
    derived class adds. *)
Record GenericEngine (State : Type) : Type := {
  engine_arguments_ : ArgumentsType;
  engine_results_ : ResultsType;
  engine_state : State
}.
Arguments engine_arguments_ {State} _.
Arguments engine_results_ {State} _.
Arguments engine_state {State} _.

(** What a pointer returned by [arguments()] or [results()] points to:
    the member of the engine, of type [ArgumentsType] or [ResultsType],
    or an object of another class derived from [Arguments] or
    [Results]. *)
Inductive pointee : Type :=
| engine_member
| other_class.

(** The virtual members of the wrapped engine. *)
Class PricingEngine (State : Type) : Type := {
  arguments : pointee;
  results : pointee;
  reset : GenericEngine State -> GenericEngine State;
  calculate : M (GenericEngine State) unit
}.

(** A pointer held by the decorator: null, or to the member of the
    wrapped engine. *)
Inductive pointer : Type :=
| null
| to_engine_member.

(** [dynamic_cast<T*>(p)]: null unless [p] points to a [T]. *)
Definition dynamic_cast (p : pointee) : pointer :=
  match p with
  | engine_member => to_engine_member
  | other_class => null
  end.

(** A [Handle<T>]: null, or linked to an object. *)
Definition Handle (T : Type) : Type := option T.

(** ** The forward engine *)

(** The members of [ForwardEngine<ArgumentsType, ResultsType>], with
    the engine that the (non-null) handle [originalEngine_] links to. *)
Record ForwardEngine (State : Type) : Type := {
  arguments_ : ForwardOptionArguments;
  results_ : ResultsType;
  originalEngine_ : GenericEngine State;
  originalArguments_ : pointer;
  originalResults_ : pointer
}.
Arguments arguments_ {State} _.
Arguments results_ {State} _.
Arguments originalEngine_ {State} _.
Arguments originalArguments_ {State} _.
Arguments originalResults_ {State} _.

End Engines.

Arguments engine_arguments_ {_ State} _.
Arguments engine_results_ {_ State} _.
Arguments engine_state {_ State} _.
Arguments arguments_ {_ State} _.
Arguments results_ {_ State} _.
Arguments originalEngine_ {_ State} _.
Arguments originalArguments_ {_ State} _.
Arguments originalResults_ {_ State} _.

(** ** Assignments to members *)

Section Assignments.
Context `{Market}.

Definition set_type (x : Option_Type) (a : ArgumentsType) : ArgumentsType :=
  {| type := x; underlying := underlying a; strike := strike a;
     dividendTS := dividendTS a; riskFreeTS := riskFreeTS a;
     volTS := volTS a; exerciseType := exerciseType a;
     stoppingTimes := stoppingTimes a; maturity := maturity a |}.

Definition set_underlying (x : double) (a : ArgumentsType) : ArgumentsType :=
  {| type := type a; underlying := x; strike := strike a;
     dividendTS := dividendTS a; riskFreeTS := riskFreeTS a;
     volTS := volTS a; exerciseType := exerciseType a;
     stoppingTimes := stoppingTimes a; maturity := maturity a |}.

Definition set_strike (x : double) (a : ArgumentsType) : ArgumentsType :=
  {| type := type a; underlying := underlying a; strike := x;
     dividendTS := dividendTS a; riskFreeTS := riskFreeTS a;
     volTS := volTS a; exerciseType := exerciseType a;
     stoppingTimes := stoppingTimes a; maturity := maturity a |}.

Definition set_dividendTS (x : TermStructure) (a : ArgumentsType)
  : ArgumentsType :=
  {| type := type a; underlying := underlying a; strike := strike a;
     dividendTS := x; riskFreeTS := riskFreeTS a;
     volTS := volTS a; exerciseType := exerciseType a;
     stoppingTimes := stoppingTimes a; maturity := maturity a |}.

Definition set_riskFreeTS (x : TermStructure) (a : ArgumentsType)
  : ArgumentsType :=
  {| type := type a; underlying := underlying a; strike := strike a;
     dividendTS := dividendTS a; riskFreeTS := x;
     volTS := volTS a; exerciseType := exerciseType a;
     stoppingTimes := stoppingTimes a; maturity := maturity a |}.

Definition set_volTS (x : BlackVolTermStructure) (a : ArgumentsType)
  : ArgumentsType :=
  {| type := type a; underlying := underlying a; strike := strike a;
     dividendTS := dividendTS a; riskFreeTS := riskFreeTS a;
     volTS := x; exerciseType := exerciseType a;
     stoppingTimes := stoppingTimes a; maturity := maturity a |}.

Definition set_exerciseType (x : Exercise_Type) (a : ArgumentsType)
  : ArgumentsType :=
  {| type := type a; underlying := underlying a; strike := strike a;
     dividendTS := dividendTS a; riskFreeTS := riskFreeTS a;
     volTS := volTS a; exerciseType := x;
     stoppingTimes := stoppingTimes a; maturity := maturity a |}.

Definition set_stoppingTimes (x : list Time) (a : ArgumentsType)
  : ArgumentsType :=
  {| type := type a; underlying := underlying a; strike := strike a;
     dividendTS := dividendTS a; riskFreeTS := riskFreeTS a;
     volTS := volTS a; exerciseType := exerciseType a;
     stoppingTimes := x; maturity := maturity a |}.

Definition set_maturity (x : Time) (a : ArgumentsType) : ArgumentsType :=
  {| type := type a; underlying := underlying a; strike := strike a;
     dividendTS := dividendTS a; riskFreeTS := riskFreeTS a;
     volTS := volTS a; exerciseType := exerciseType a;
     stoppingTimes := stoppingTimes a; maturity := x |}.

Definition set_value (x : double) (r : ResultsType) : ResultsType :=
  {| value := x; delta := delta r; gamma := gamma r; theta := theta r;
     vega := vega r; rho := rho r; dividendRho := dividendRho r;
     strikeSensitivity := strikeSensitivity r |}.

Definition set_delta (x : double) (r : ResultsType) : ResultsType :=
  {| value := value r; delta := x; gamma := gamma r; theta := theta r;
     vega := vega r; rho := rho r; dividendRho := dividendRho r;
     strikeSensitivity := strikeSensitivity r |}.

Definition set_gamma (x : double) (r : ResultsType) : ResultsType :=
  {| value := value r; delta := delta r; gamma := x; theta := theta r;
     vega := vega r; rho := rho r; dividendRho := dividendRho r;
     strikeSensitivity := strikeSensitivity r |}.

Definition set_theta (x : double) (r : ResultsType) : ResultsType :=
  {| value := value r; delta := delta r; gamma := gamma r; theta := x;
     vega := vega r; rho := rho r; dividendRho := dividendRho r;
     strikeSensitivity := strikeSensitivity r |}.

Definition set_vega (x : double) (r : ResultsType) : ResultsType :=
  {| value := value r; delta := delta r; gamma := gamma r; theta := theta r;
     vega := x; rho := rho r; dividendRho := dividendRho r;
     strikeSensitivity := strikeSensitivity r |}.

Definition set_rho (x : double) (r : ResultsType) : ResultsType :=
  {| value := value r; delta := delta r; gamma := gamma r; theta := theta r;
     vega := vega r; rho := x; dividendRho := dividendRho r;
     strikeSensitivity := strikeSensitivity r |}.

Definition set_dividendRho (x : double) (r : ResultsType) : ResultsType :=
  {| value := value r; delta := delta r; gamma := gamma r; theta := theta r;
     vega := vega r; rho := rho r; dividendRho := x;
     strikeSensitivity := strikeSensitivity r |}.

Definition set_base (b : ArgumentsType) (a : ForwardOptionArguments)
  : ForwardOptionArguments :=
  {| base := b; moneyness := moneyness a; resetDate := resetDate a |}.

Definition set_moneyness (m : double) (a : ForwardOptionArguments)
  : ForwardOptionArguments :=
  {| base := base a; moneyness := m; resetDate := resetDate a |}.

Context {State : Type}.

Definition set_engine_arguments_ (a : ArgumentsType) (e : GenericEngine State)
  : GenericEngine State :=
  {| engine_arguments_ := a; engine_results_ := engine_results_ e;
     engine_state := engine_state e |}.

Definition set_engine_results_ (r : ResultsType) (e : GenericEngine State)
  : GenericEngine State :=
  {| engine_arguments_ := engine_arguments_ e; engine_results_ := r;
     engine_state := engine_state e |}.

Definition set_results_ (r : ResultsType) (fe : ForwardEngine State)
  : ForwardEngine State :=
  {| arguments_ := arguments_ fe; results_ := r;
     originalEngine_ := originalEngine_ fe;
     originalArguments_ := originalArguments_ fe;
     originalResults_ := originalResults_ fe |}.

Definition set_arguments_ (a : ForwardOptionArguments)
           (fe : ForwardEngine State) : ForwardEngine State :=
  {| arguments_ := a; results_ := results_ fe;
     originalEngine_ := originalEngine_ fe;
     originalArguments_ := originalArguments_ fe;
     originalResults_ := originalResults_ fe |}.

Definition set_originalEngine_ (e : GenericEngine State)
           (fe : ForwardEngine State) : ForwardEngine State :=
  {| arguments_ := arguments_ fe; results_ := results_ fe;
     originalEngine_ := e;
     originalArguments_ := originalArguments_ fe;
     originalResults_ := originalResults_ fe |}.

End Assignments.

(** ** The methods of the forward engines *)

(** What a constructor gives: the object, or the error it threw. *)
Inductive constructed (T : Type) : Type :=
| Constructed (object : T)
| Construction_failed (what : string).

Arguments Constructed {T} object.
Arguments Construction_failed {T} what.

Section ForwardEngines.
Context `{TemplateParameters} {State : Type} {Engine : PricingEngine State}.

Local Open Scope method_scope.

(** [ForwardEngine::ForwardEngine(originalEngine)]; the members
    [arguments_] and [results_] are default-constructed. *)
Definition ForwardEngine_new (originalEngine : Handle (GenericEngine State))
  : constructed (ForwardEngine State) :=
  match originalEngine with
  | None =>
      Construction_failed
        "ForwardEngine::ForwardEngine : null engine or wrong engine type"
  | Some engine =>
      Constructed
        {| arguments_ := ForwardOptionArguments_new ArgumentsType_new;
           results_ := ResultsType_new;
           originalEngine_ := engine;
           originalResults_ := dynamic_cast results;
           originalArguments_ := dynamic_cast arguments |}
  end.

(** [ForwardPerformanceEngine::ForwardPerformanceEngine(originalEngine)]
    constructs its base with the same handle and adds no member. *)
Definition ForwardPerformanceEngine_new
           (originalEngine : Handle (GenericEngine State))
  : constructed (ForwardEngine State) :=
  ForwardEngine_new originalEngine.

(** [originalArguments_->member = rhs], where [rhs] reads [arguments_]. *)
Definition assign_originalArguments {X : Type}
           (set : X -> ArgumentsType -> ArgumentsType)
           (rhs : ForwardOptionArguments -> X)
  : M (ForwardEngine State) unit :=
  fun fe =>
    match originalArguments_ fe with
    | null => Undefined null_pointer_dereference
    | to_engine_member =>
        let engine := originalEngine_ fe in
        Returns tt
          (set_originalEngine_
             (set_engine_arguments_
                (set (rhs (arguments_ fe)) (engine_arguments_ engine))
                engine)
             fe)
    end.

(** [originalArguments_->validate()] *)
Definition originalArguments_validate : M (ForwardEngine State) unit :=
  fun fe =>
    match originalArguments_ fe with
    | null => Undefined null_pointer_dereference
    | to_engine_member =>
        run_checked
          (ArgumentsType_validate (engine_arguments_ (originalEngine_ fe)))
          fe
    end.

(** [originalResults_->member] *)
Definition originalResults (member : ResultsType -> double)
  : M (ForwardEngine State) double :=
  fun fe =>
    match originalResults_ fe with
    | null => Undefined null_pointer_dereference
    | to_engine_member =>
        Returns (member (engine_results_ (originalEngine_ fe))) fe
    end.

(** [results_.member = x] *)
Definition assign_results (set : double -> ResultsType -> ResultsType)
           (x : double) : M (ForwardEngine State) unit :=
  modify (fun fe => set_results_ (set x (results_ fe)) fe).

(** [originalEngine_->reset()] *)
Definition originalEngine_reset : M (ForwardEngine State) unit :=
  modify (fun fe => set_originalEngine_ (reset (originalEngine_ fe)) fe).

(** [originalEngine_->calculate()] *)
Definition originalEngine_calculate : M (ForwardEngine State) unit :=
  on_member originalEngine_ set_originalEngine_ calculate.

(** [ForwardEngine::setOriginalArguments()] *)
Definition ForwardEngine_setOriginalArguments : M (ForwardEngine State) unit :=
  assign_originalArguments set_type (fun a => type a) ;;
  assign_originalArguments set_underlying (fun a => underlying a) ;;
  assign_originalArguments set_strike
    (fun a => moneyness a * underlying a) ;;
  assign_originalArguments set_dividendTS
    (fun a => ImpliedTermStructure (dividendTS a) (resetDate a) (resetDate a)) ;;
  assign_originalArguments set_riskFreeTS
    (fun a => ImpliedTermStructure (riskFreeTS a) (resetDate a) (resetDate a)) ;;
  assign_originalArguments set_volTS
    (fun a => ImpliedVolTermStructure (volTS a) (resetDate a)) ;;
  assign_originalArguments set_exerciseType (fun a => exerciseType a) ;;
  assign_originalArguments set_stoppingTimes (fun a => stoppingTimes a) ;;
  assign_originalArguments set_maturity (fun a => maturity a) ;;
  originalArguments_validate.

(** [ForwardEngine::getOriginalResults()] *)
Definition ForwardEngine_getOriginalResults : M (ForwardEngine State) unit :=
  a <- gets arguments_ ;;
  let resetTime :=
    yearFraction (dayCounter (riskFreeTS a))
                 (referenceDate (riskFreeTS a)) (resetDate a) in
  let discQ := discount (dividendTS a) (resetDate a) in
  o_value <- originalResults value ;;
  assign_results set_value (discQ * o_value) ;;
  o_delta <- originalResults delta ;;
  o_strikeSensitivity <- originalResults strikeSensitivity ;;
  assign_results set_delta
    (discQ * (o_delta + moneyness a * o_strikeSensitivity)) ;;
  assign_results set_gamma 0 ;;
  r_value <- gets (fun fe => value (results_ fe)) ;;
  assign_results set_theta
    (zeroYield (dividendTS a) (resetDate a) * r_value) ;;
  o_vega <- originalResults vega ;;
  assign_results set_vega (discQ * o_vega) ;;
  o_rho <- originalResults rho ;;
  assign_results set_rho (discQ * o_rho) ;;
  r_value <- gets (fun fe => value (results_ fe)) ;;
  o_dividendRho <- originalResults dividendRho ;;
  assign_results set_dividendRho
    ((- resetTime) * r_value + discQ * o_dividendRho).

(** [ForwardEngine::calculate()] *)
Definition ForwardEngine_calculate : M (ForwardEngine State) unit :=
  originalEngine_reset ;;
  ForwardEngine_setOriginalArguments ;;
  originalEngine_calculate ;;
  ForwardEngine_getOriginalResults.

(** [ForwardPerformanceEngine::getOriginalResults()] *)
Definition ForwardPerformanceEngine_getOriginalResults
  : M (ForwardEngine State) unit :=
  a <- gets arguments_ ;;
  let resetTime :=
    yearFraction (dayCounter (riskFreeTS a))
                 (referenceDate (riskFreeTS a)) (resetDate a) in
  let discR := discount (riskFreeTS a) (resetDate a) in
  let discR := discR / underlying a in
  temp <- originalResults value ;;
  assign_results set_value (discR * temp) ;;
  assign_results set_delta 0 ;;
  assign_results set_gamma 0 ;;
  r_value <- gets (fun fe => value (results_ fe)) ;;
  assign_results set_theta
    (zeroYield (riskFreeTS a) (resetDate a) * r_value) ;;
  o_vega <- originalResults vega ;;
  assign_results set_vega (discR * o_vega) ;;
  r_value <- gets (fun fe => value (results_ fe)) ;;
  o_rho <- originalResults rho ;;
  assign_results set_rho ((- resetTime) * r_value + discR * o_rho) ;;
  o_dividendRho <- originalResults dividendRho ;;
  assign_results set_dividendRho (discR * o_dividendRho).

(** [ForwardPerformanceEngine::calculate()] *)
Definition ForwardPerformanceEngine_calculate : M (ForwardEngine State) unit :=
  ForwardEngine_setOriginalArguments ;;
  originalEngine_calculate ;;
  ForwardPerformanceEngine_getOriginalResults.

End ForwardEngines.

(** ** Observing the calls on the wrapped engine *)

Section Spy.
Context `{Market} {State : Type} {Engine : PricingEngine State}.

(** A call of a virtual member of the wrapped engine; for
    [calculate()], with the arguments and the results that the engine
    holds when it is called. *)
Inductive call : Type :=
| called_reset
| called_calculate (a : ArgumentsType) (r : ResultsType).

(** The state of an engine together with the calls made on it so far. *)
Record Spied : Type := {
  spied : State;
  calls : list call
}.

Definition inner (e : GenericEngine Spied) : GenericEngine State :=
  {| engine_arguments_ := engine_arguments_ e;
     engine_results_ := engine_results_ e;
     engine_state := spied (engine_state e) |}.

Definition outer (log : list call) (e : GenericEngine State)
  : GenericEngine Spied :=
  {| engine_arguments_ := engine_arguments_ e;
     engine_results_ := engine_results_ e;
     engine_state := {| spied := engine_state e; calls := log |} |}.

(** The engine that records each call and then does what the engine
    it observes does. *)
Definition spy : PricingEngine Spied := {|
  arguments := arguments;
  results := results;
  reset := fun e =>
    outer (calls (engine_state e) ++ [called_reset]) (reset (inner e));
  calculate := fun e =>
    let log :=
      calls (engine_state e) ++
      [called_calculate (engine_arguments_ e) (engine_results_ e)] in
    on_member inner (fun i _ => outer log i) calculate e
|}.

End Spy.

Arguments Spied {_} State.

(** ** The Monte Carlo European pricer *)

(** The classes of [ql/MonteCarlo] that [McEuropean] constructs and the
    function behind [QL_EXP].  A constructor gives its object or throws. *)
Class MonteCarlo (Option_Type : Type) := {
  GaussianPathGenerator : Type;
  GaussianPathGenerator_new :
    double -> double -> Time -> Z -> Z -> constructed GaussianPathGenerator;
  PathPricer : Type;
  EuropeanPathPricer_new :
    Option_Type -> double -> double -> double -> bool -> constructed PathPricer;
  Statistics : Type;
  Statistics_new : Statistics;
  MonteCarloModel : Type;
  MonteCarloModel_new :
    Handle GaussianPathGenerator -> Handle PathPricer -> Statistics ->
    constructed MonteCarloModel;
  QL_EXP : double -> double
}.

Section Pricers.
Context {Option_Type : Type} `{MonteCarlo Option_Type}.

(** The member of [McEuropean] (inherited from [McPricer]). *)
Record McEuropean : Type := {
  mcModel_ : Handle MonteCarloModel
}.

(** [McEuropean::McEuropean(type, underlying, strike, dividendYield,
    riskFreeRate, residualTime, volatility, antitheticVariance, seed)] *)
Definition McEuropean_new (type : Option_Type) (underlying strike : double)
           (dividendYield riskFreeRate : Rate)
           (residualTime volatility : double)
           (antitheticVariance : bool) (seed : Z)
  : constructed McEuropean :=
  let mu := riskFreeRate - dividendYield - 0.5 * volatility * volatility in
  match GaussianPathGenerator_new mu (volatility * volatility)
                                  residualTime 1 seed with
  | Construction_failed what => Construction_failed what
  | Constructed pathGenerator =>
    match EuropeanPathPricer_new type underlying strike
                                 (QL_EXP (- riskFreeRate * residualTime))
                                 antitheticVariance with
    | Construction_failed what => Construction_failed what
    | Constructed euroPathPricer =>
      match MonteCarloModel_new (Some pathGenerator) (Some euroPathPricer)
                                Statistics_new with
      | Construction_failed what => Construction_failed what
      | Constructed model => Constructed {| mcModel_ := Some model |}
      end
    end
  end.

End Pricers.

(** ** Concrete collaborators

    Test doubles of the interfaces: dates as serial numbers with an
    Actual/365 day counter, curves given by their discount and zero-yield
    functions, and wrapped engines of three kinds. *)

Module Stub.

Definition Z_to_double (z : Z) : double :=
  match z with
  | Z0 => 0
  | Zpos _ => of_uint63 (Uint63.of_Z z)
  | Zneg p => - of_uint63 (Uint63.of_Z (Zpos p))
  end.

Record Curve : Type := {
  reference : Z;
  discount_at : Z -> double;
  zeroYield_at : Z -> double
}.

Inductive OptionType : Type := Call | Put | Straddle.
Inductive ExerciseType : Type := European | American | Bermudan.

#[export] Instance market : Market := {|
  Date := Z;
  Date_eq_dec := Z.eq_dec;
  Null_Date := 0%Z;
  Null_double := 0x1.fffffep127;
  DayCounter := unit;
  yearFraction := fun _ d1 d2 => Z_to_double (d2 - d1) / 365;
  TermStructure := Curve;
  dayCounter := fun _ => tt;
  referenceDate := reference;
  discount := discount_at;
  zeroYield := zeroYield_at;
  ImpliedTermStructure := fun c _ newReferenceDate =>
    {| reference := newReferenceDate;
       discount_at := fun d => discount_at c d / discount_at c newReferenceDate;
       zeroYield_at := zeroYield_at c |};
  BlackVolTermStructure := Z * double;
  ImpliedVolTermStructure := fun v newReferenceDate =>
    (newReferenceDate, snd v);
  Option_Type := OptionType;
  Exercise_Type := ExerciseType
|}.

Definition unset : ResultsType :=
  {| value := Null_double; delta := Null_double; gamma := Null_double;
     theta := Null_double; vega := Null_double; rho := Null_double;
     dividendRho := Null_double; strikeSensitivity := Null_double |}.

Definition flat (ref : Z) (df r : double) : Curve :=
  {| reference := ref; discount_at := fun _ => df;
     zeroYield_at := fun _ => r |}.

Definition blank : ArgumentsType :=
  {| type := Call; underlying := Null_double; strike := Null_double;
     dividendTS := flat 0 1 0; riskFreeTS := flat 0 1 0;
     volTS := (0%Z, 0); exerciseType := European;
     stoppingTimes := []; maturity := Null_double |}.

(** Template parameters whose [validate()] requires an underlying that
    is set and positive and a positive strike. *)
#[export] Instance vanilla : TemplateParameters := {|
  ArgumentsType_new := blank;
  ResultsType_new := unset;
  ArgumentsType_validate := fun a =>
    REQUIRE negb (underlying a =? Null_double)
      ELSE "null underlying given" ;;
    REQUIRE 0 <? underlying a
      ELSE "negative or zero underlying given" ;;
    REQUIRE 0 <? strike a
      ELSE "negative or zero strike given" ;;
    Passed
|}.

(** The same with a [validate()] that accepts every state. *)
Definition lenient : TemplateParameters := {|
  ArgumentsType_new := blank;
  ResultsType_new := unset;
  ArgumentsType_validate := fun _ => Passed
|}.

(** An engine that returns fixed results. *)
Definition fixed_results : ResultsType :=
  {| value := 10; delta := 0.5; gamma := 0.02; theta := -1;
     vega := 2; rho := 1; dividendRho := 0.4;
     strikeSensitivity := -0.3 |}.

Definition fixed_engine `{TemplateParameters} : PricingEngine unit := {|
  arguments := engine_member;
  results := engine_member;
  reset := set_engine_results_ ResultsType_new;
  calculate := modify (set_engine_results_ fixed_results)
|}.

(** An engine whose [results()] points to an object of another class. *)
Definition foreign_engine `{TemplateParameters} : PricingEngine unit := {|
  arguments := engine_member;
  results := other_class;
  reset := fun e => e;
  calculate := ret tt
|}.

(** An engine that accumulates: each [calculate()] adds the strike as
    one more sample to a running sum and reports the sum as its value;
    [reset()] clears the results and keeps the sum. *)
Definition accumulating_engine `{TemplateParameters} : PricingEngine double := {|
  arguments := engine_member;
  results := engine_member;
  reset := set_engine_results_ ResultsType_new;
  calculate := fun e =>
    let total := engine_state e + strike (engine_arguments_ e) in
    Returns tt
      {| engine_arguments_ := engine_arguments_ e;
         engine_results_ := set_value total (engine_results_ e);
         engine_state := total |}
|}.

(** Collaborators of [McEuropean] that keep what they are constructed
    with.  The path generator requires a positive length and a
    non-negative variance. *)
Record Generator : Type := {
  drift : double;
  variance : double;
  length : Time;
  steps : Z;
  seed_ : Z
}.

Record Pricer : Type := {
  type_ : OptionType;
  underlying_ : double;
  strike_ : double;
  discount_ : double;
  antitheticVariance_ : bool
}.

Record Model : Type := {
  pathGenerator_ : Handle Generator;
  pathPricer_ : Handle Pricer;
  sampleAccumulator_ : list double
}.

(** A polynomial stand-in for [exp]. *)
Definition exp_polynomial (x : double) : double :=
  1 + x * (1 + x / 2 * (1 + x / 3 * (1 + x / 4 * (1 + x / 5 *
    (1 + x / 6 * (1 + x / 7 * (1 + x / 8 * (1 + x / 9)))))))).

#[export] Instance recording : MonteCarlo OptionType := {|
  GaussianPathGenerator := Generator;
  GaussianPathGenerator_new := fun mu var T n seed =>
    if negb (0 <? T)
    then Construction_failed "PathGenerator: length must be > 0"
    else if negb (0 <=? var)
    then Construction_failed "PathGenerator: negative variance"
    else Constructed {| drift := mu; variance := var; length := T;
                        steps := n; seed_ := seed |};
  PathPricer := Pricer;
  EuropeanPathPricer_new := fun t u k d a =>
    Constructed {| type_ := t; underlying_ := u; strike_ := k;
                   discount_ := d; antitheticVariance_ := a |};
  Statistics := list double;
  Statistics_new := [];
  MonteCarloModel := Model;
  MonteCarloModel_new := fun g p s =>
    Constructed {| pathGenerator_ := g; pathPricer_ := p;
                   sampleAccumulator_ := s |};
  QL_EXP := exp_polynomial
|}.

End Stub.

(** ** Concrete states *)

Module Scenario.
Import Stub.

(** A forward-starting call: moneyness 1, reset after half a year,
    maturity one year, dividend discount factor 0.98 at the reset. *)
Definition forward_call : ForwardOptionArguments :=
  {| base := {| type := Call; underlying := 100; strike := 100;
                dividendTS := flat 37000 0.98 0.04;
                riskFreeTS := flat 37000 0.975 0.05;
                volTS := (37000%Z, 0.2); exerciseType := European;
                stoppingTimes := []; maturity := 1 |};
     moneyness := 1;
     resetDate := 37182%Z |}.

(** The same option with a moneyness that is not a number. *)
Definition nan_moneyness : ForwardOptionArguments :=
  set_moneyness nan forward_call.

(** The same option on an underlying at zero. *)
Definition zero_underlying : ForwardOptionArguments :=
  set_base (set_underlying 0 forward_call) forward_call.

(** A decorator around an engine in the state [e], as constructed and
    then given the arguments [a]. *)
Definition decorate {State : Type} `{V : TemplateParameters}
           {E : PricingEngine State}
           (a : ForwardOptionArguments) (e : GenericEngine State)
  : ForwardEngine State :=
  {| arguments_ := a; results_ := ResultsType_new;
     originalEngine_ := e;
     originalArguments_ := dynamic_cast arguments;
     originalResults_ := dynamic_cast results |}.

Definition fresh_engine {State : Type} (s : State) : GenericEngine State :=
  {| engine_arguments_ := blank; engine_results_ := unset;
     engine_state := s |}.

(** The decorator of the forward-starting call around the engine with
    fixed results, once the wrapped engine has calculated. *)
Definition priced : ForwardEngine unit :=
  decorate (V := vanilla) (E := fixed_engine) forward_call
           (set_engine_results_ fixed_results (fresh_engine tt)).

(** The same decorator around the engine with fixed results whose
    calls are recorded, before any call. *)
Definition observed : ForwardEngine (Spied unit) :=
  decorate (V := vanilla) (E := spy (Engine := fixed_engine)) forward_call
           (fresh_engine {| spied := tt; calls := [] |}).

(** The same decorator around the accumulating engine, before any
    call. *)
Definition accumulating : ForwardEngine double :=
  decorate (V := vanilla) (E := accumulating_engine) forward_call
           (fresh_engine 0).

(** A decorator of the option on an underlying at zero, with a wrapped
    [validate()] that accepts every state. *)
Definition degenerate : ForwardEngine unit :=
  decorate (V := lenient) (E := fixed_engine (H0 := lenient))
           zero_underlying (fresh_engine tt).

(** A decorator of the option on an underlying at zero around the engine
    with fixed results whose calls are recorded; the wrapped [validate()]
    requires a positive underlying. *)
Definition rejected : ForwardEngine (Spied unit) :=
  decorate (V := vanilla) (E := spy (Engine := fixed_engine))
           zero_underlying (fresh_engine {| spied := tt; calls := [] |}).

(** The engine whose [results()] is of another class, before
    construction of the decorator. *)
Definition foreign : Handle (GenericEngine unit) := Some (fresh_engine tt).

End Scenario.

(** ** Vocabulary of the statements *)

Section Vocabulary.
Context `{TemplateParameters}.

(** The year fraction from the reference date of the risk-free curve
    to the reset date. *)
Definition resetTime_of (a : ForwardOptionArguments) : Time :=
  yearFraction (dayCounter (riskFreeTS a))
               (referenceDate (riskFreeTS a)) (resetDate a).

Definition raises (c : checked) : Prop := exists what, c = Failed what.

(** The rejection condition with the comparisons read on the reals:
    null or non-positive moneyness, null reset date, negative reset
    time, reset time beyond maturity. *)
Definition rejected_on_reals (a : ForwardOptionArguments) : Prop :=
  (moneyness a =? Null_double) = true \/
  (moneyness a <=? 0) = true \/
  resetDate a = Null_Date \/
  (resetTime_of a <? 0) = true \/
  (maturity a <? resetTime_of a) = true.

(** The wrapped engine repeats itself from the state [e]: when
    [calculate()] returns from [e], a second [calculate()] on the same
    arguments, from the state that the first call left and that [prepare]
    has passed over, returns too, with the same results. *)
Definition repeats {State : Type} {Engine : PricingEngine State}
           (prepare : GenericEngine State -> GenericEngine State)
           (e : GenericEngine State) : Prop :=
  forall e1 : GenericEngine State,
    calculate e = Returns tt e1 ->
    exists e2 : GenericEngine State,
      calculate (set_engine_arguments_ (engine_arguments_ e) (prepare e1))
        = Returns tt e2 /\
      engine_results_ e2 = engine_results_ e1.

(** Results without a finite value: the value, theta, vega, rho and
    dividend rho are infinite or NaN, the delta and the gamma zero. *)
Definition no_finite_results (r : ResultsType) : Prop :=
  is_finite (value r) = false /\
  is_finite (theta r) = false /\
  is_finite (vega r) = false /\
  is_finite (rho r) = false /\
  is_finite (dividendRho r) = false /\
  delta r = 0 /\
  gamma r = 0.

End Vocabulary.

Section EngineVocabulary.
Context `{TemplateParameters} {State : Type} {Engine : PricingEngine State}.

(** The wrapped arguments that [setOriginalArguments()] builds from the
    decorator's arguments [a]. *)
Definition original_arguments_for (a : ForwardOptionArguments)
  : ArgumentsType :=
  {| type := type a;
     underlying := underlying a;
     strike := moneyness a * underlying a;
     dividendTS :=
       ImpliedTermStructure (dividendTS a) (resetDate a) (resetDate a);
     riskFreeTS :=
       ImpliedTermStructure (riskFreeTS a) (resetDate a) (resetDate a);
     volTS := ImpliedVolTermStructure (volTS a) (resetDate a);
     exerciseType := exerciseType a;
     stoppingTimes := stoppingTimes a;
     maturity := maturity a |}.

(** The decorator with the wrapped arguments set for its own. *)
Definition with_original_arguments (fe : ForwardEngine State)
  : ForwardEngine State :=
  set_originalEngine_
    (set_engine_arguments_ (original_arguments_for (arguments_ fe))
                           (originalEngine_ fe))
    fe.

(** The results that [ForwardEngine::getOriginalResults()] computes
    from the arguments [a], the wrapped results [o] and the results [r]
    it overwrites. *)
Definition forward_results (a : ForwardOptionArguments) (o r : ResultsType)
  : ResultsType :=
  let discQ := discount (dividendTS a) (resetDate a) in
  let value' := discQ * value o in
  {| value := value';
     delta := discQ * (delta o + moneyness a * strikeSensitivity o);
     gamma := 0;
     theta := zeroYield (dividendTS a) (resetDate a) * value';
     vega := discQ * vega o;
     rho := discQ * rho o;
     dividendRho := - resetTime_of a * value' + discQ * dividendRho o;
     strikeSensitivity := strikeSensitivity r |}.

(** The same for [ForwardPerformanceEngine::getOriginalResults()]. *)
Definition performance_results (a : ForwardOptionArguments)
           (o r : ResultsType) : ResultsType :=
  let discR := discount (riskFreeTS a) (resetDate a) / underlying a in
  let value' := discR * value o in
  {| value := value';
     delta := 0;
     gamma := 0;
     theta := zeroYield (riskFreeTS a) (resetDate a) * value';
     vega := discR * vega o;
     rho := - resetTime_of a * value' + discR * rho o;
     dividendRho := discR * dividendRho o;
     strikeSensitivity := strikeSensitivity r |}.

(** What follows [setOriginalArguments()] in both decorators: the
    wrapped engine calculates on the engine state [e], then [finish]
    (one of the two [getOriginalResults()]) runs. *)
Definition then_calculate (finish : M (ForwardEngine State) unit)
           (e : GenericEngine State) (fe : ForwardEngine State)
  : outcome (ForwardEngine State) unit :=
  match calculate e with
  | Returns _ e' => finish (set_originalEngine_ e' fe)
  | Throws what e' => Throws what (set_originalEngine_ e' fe)
  | Undefined ub => Undefined ub
  end.

(** The state that [ForwardEngine::calculate()] leaves when the wrapped
    engine has left [e3]. *)
Definition forward_state (e3 : GenericEngine State)
           (fe : ForwardEngine State) : ForwardEngine State :=
  set_results_
    (forward_results (arguments_ fe) (engine_results_ e3) (results_ fe))
    (set_originalEngine_ e3 fe).

Definition performance_state (e3 : GenericEngine State)
           (fe : ForwardEngine State) : ForwardEngine State :=
  set_results_
    (performance_results (arguments_ fe) (engine_results_ e3) (results_ fe))
    (set_originalEngine_ e3 fe).

End EngineVocabulary.

Section PricerVocabulary.
Context {Option_Type : Type} `{MonteCarlo Option_Type}.

(** The constructor of [McEuropean] throws whenever the residual time
    or the volatility is zero or negative. *)
Definition rejects_nonpositive : Prop :=
  forall (type : Option_Type) (underlying strike : double)
         (dividendYield riskFreeRate : Rate)
         (residualTime volatility : double)
         (antitheticVariance : bool) (seed : Z),
    (residualTime <=? 0) = true \/ (volatility <=? 0) = true ->
    exists what,
      McEuropean_new type underlying strike dividendYield riskFreeRate
                     residualTime volatility antitheticVariance seed
        = Construction_failed what.

End PricerVocabulary.

(** Whether a float of the specification is a finite number. *)
Definition SF_finite (a : spec_float) : bool :=
  match a with
  | S754_zero _ | S754_finite _ _ _ => true
  | _ => false
  end.

(** * Properties *)

(** ** Facts on binary64 comparisons and products *)

Section FloatFacts.

Lemma SFcompare_antisym (a b : spec_float) :
  SFcompare b a = option_map CompOpp (SFcompare a b).
Proof.
  destruct a as [sa|sa| |sa ma ea], b as [sb|sb| |sb mb eb]; simpl;
    try reflexivity;
    try (destruct sa; reflexivity); try (destruct sb; reflexivity);
    try (destruct sa, sb; reflexivity).
  destruct sa, sb; simpl; try reflexivity;
    rewrite (Z.compare_antisym ea eb);
    destruct (ea ?= eb)%Z; simpl; try reflexivity;
    change (Pos.compare_cont Eq mb ma)
      with (Pos.compare_cont (CompOpp Eq) mb ma);
    rewrite <- (Pos.compare_cont_antisym ma mb Eq);
    try rewrite CompOpp_involutive; reflexivity.
Qed.

Lemma SFcompare_None (a b : spec_float) :
  SFcompare a b = None <-> a = S754_nan \/ b = S754_nan.
Proof.
  destruct a as [sa|sa| |sa ma ea], b as [sb|sb| |sb mb eb]; simpl;
    split; intro E; try discriminate; try (now left); try (now right);
    try (destruct E as [E|E]; discriminate); try reflexivity.
Qed.

Lemma SFcompare_refl (a : spec_float) :
  a <> S754_nan -> SFcompare a a = Some Eq.
Proof.
  destruct a as [sa|sa| |sa ma ea]; simpl; intro N;
    try reflexivity; try (destruct sa; reflexivity); try congruence.
  rewrite Z.compare_refl, Pos.compare_cont_refl. destruct sa; reflexivity.
Qed.

Lemma is_nan_iff (x : float) : is_nan x = true <-> Prim2SF x = S754_nan.
Proof.
  unfold is_nan. rewrite FloatAxioms.eqb_spec. unfold SFeqb.
  split.
  - intro E. destruct (Prim2SF x) eqn:P; try reflexivity;
      rewrite SFcompare_refl in E by discriminate; discriminate.
  - intro E. rewrite E. reflexivity.
Qed.

(** [!(x < y)] holds when [y <= x] and when one of the two is a NaN. *)
Lemma ltb_false_iff (x y : float) :
  (x <? y) = false <->
  (y <=? x) = true \/ is_nan x = true \/ is_nan y = true.
Proof.
  rewrite ltb_spec, leb_spec, !is_nan_iff. unfold SFltb, SFleb.
  rewrite (SFcompare_antisym (Prim2SF x) (Prim2SF y)).
  pose proof (SFcompare_None (Prim2SF x) (Prim2SF y)) as N.
  destruct (SFcompare (Prim2SF x) (Prim2SF y)) as [[| |]|]; simpl;
    split; intro E; try reflexivity; try discriminate; try (now left).
  - destruct E as [E|E]; [discriminate|]. apply N in E. discriminate.
  - right. now apply N.
Qed.

(** [!(x <= y)] holds when [y < x] and when one of the two is a NaN. *)
Lemma leb_false_iff (x y : float) :
  (x <=? y) = false <->
  (y <? x) = true \/ is_nan x = true \/ is_nan y = true.
Proof.
  rewrite ltb_spec, leb_spec, !is_nan_iff. unfold SFltb, SFleb.
  rewrite (SFcompare_antisym (Prim2SF x) (Prim2SF y)).
  pose proof (SFcompare_None (Prim2SF x) (Prim2SF y)) as N.
  destruct (SFcompare (Prim2SF x) (Prim2SF y)) as [[| |]|]; simpl;
    split; intro E; try reflexivity; try discriminate; try (now left).
  - destruct E as [E|E]; [discriminate|]. apply N in E. discriminate.
  - destruct E as [E|E]; [discriminate|]. apply N in E. discriminate.
  - right. now apply N.
Qed.

Lemma binary_round_aux_negb (s : bool) (m e : Z) (l : location) :
  binary_round_aux prec emax (negb s) m e l =
  SFopp (binary_round_aux prec emax s m e l).
Proof.
  unfold binary_round_aux.
  destruct (shr_fexp prec emax m e l) as [mrs' e'].
  destruct (shr_fexp prec emax _ e' loc_Exact) as [mrs'' e''].
  destruct (shr_m mrs''); try reflexivity.
  destruct (e'' <=? emax - prec)%Z; reflexivity.
Qed.

Lemma SFmul_opp_r (a b : spec_float) :
  SF64mul a (SFopp b) = SFopp (SF64mul a b).
Proof.
  destruct a as [sa|sa| |sa ma ea], b as [sb|sb| |sb mb eb]; simpl;
    try reflexivity; try (now destruct sa, sb).
  rewrite <- binary_round_aux_negb. now destruct sa, sb.
Qed.

Lemma SFmul_opp_l (a b : spec_float) :
  SF64mul (SFopp a) b = SFopp (SF64mul a b).
Proof.
  destruct a as [sa|sa| |sa ma ea], b as [sb|sb| |sb mb eb]; simpl;
    try reflexivity; try (now destruct sa, sb).
  rewrite <- binary_round_aux_negb. now destruct sa, sb.
Qed.

Lemma SFopp_involutive (a : spec_float) : SFopp (SFopp a) = a.
Proof. destruct a; simpl; now rewrite ?negb_involutive. Qed.

Lemma mul_opp_r (x y : float) : x * (- y) = - (x * y).
Proof.
  apply Prim2SF_inj.
  now rewrite opp_spec, !mul_spec, opp_spec, SFmul_opp_r.
Qed.

Lemma mul_opp_opp (x y : float) : (- x) * (- y) = x * y.
Proof.
  apply Prim2SF_inj.
  now rewrite !mul_spec, !opp_spec, SFmul_opp_r, SFmul_opp_l,
    SFopp_involutive.
Qed.

(** Two doubles that compare unequal are different. *)
Lemma eqb_false_neq (x y : float) : (x =? y) = false -> is_nan x = false ->
  x <> y.
Proof.
  intros E N ->. unfold is_nan in N. rewrite E in N. discriminate.
Qed.

Lemma eqb_zero_inv (v : float) :
  (v =? 0) = true -> exists s, Prim2SF v = S754_zero s.
Proof.
  rewrite FloatAxioms.eqb_spec. unfold SFeqb.
  change (Prim2SF 0) with (S754_zero false).
  destruct (Prim2SF v) as [s|[|]| |[|] m e]; simpl; try discriminate.
  intros _. now exists s.
Qed.

Lemma is_finite_spec (x : float) : is_finite x = SF_finite (Prim2SF x).
Proof.
  unfold is_finite, is_nan, is_infinity.
  rewrite !FloatAxioms.eqb_spec, abs_spec. unfold SFeqb.
  change (Prim2SF infinity) with (S754_infinity false).
  destruct (Prim2SF x) as [s|s| |s m e]; simpl; try reflexivity;
    try (now destruct s).
  rewrite Z.compare_refl, Pos.compare_cont_refl. now destruct s.
Qed.

(** A quotient by zero is an infinity or a NaN. *)
Lemma div_by_zero_not_finite (x y : float) :
  (y =? 0) = true -> is_finite (x / y) = false.
Proof.
  intro Z. destruct (eqb_zero_inv y Z) as [s E].
  rewrite is_finite_spec, div_spec, E.
  now destruct (Prim2SF x).
Qed.

Lemma mul_not_finite_l (x y : float) :
  is_finite x = false -> is_finite (x * y) = false.
Proof.
  rewrite !is_finite_spec, mul_spec.
  destruct (Prim2SF x), (Prim2SF y); simpl; try discriminate; reflexivity.
Qed.

Lemma mul_not_finite_r (x y : float) :
  is_finite y = false -> is_finite (x * y) = false.
Proof.
  rewrite !is_finite_spec, mul_spec.
  destruct (Prim2SF x), (Prim2SF y); simpl; try discriminate; reflexivity.
Qed.

Lemma add_not_finite_r (x y : float) :
  is_finite y = false -> is_finite (x + y) = false.
Proof.
  rewrite !is_finite_spec, add_spec.
  destruct (Prim2SF x) as [[|]|[|]| |? ? ?],
           (Prim2SF y) as [[|]|[|]| |? ? ?];
    simpl; try discriminate; reflexivity.
Qed.

End FloatFacts.

(** ** [ForwardOptionArguments::validate()] *)

Section ValidateProperties.
Context `{TemplateParameters}.

Lemma Date_neqb_false (d1 d2 : Date) : Date_neqb d1 d2 = false <-> d1 = d2.
Proof.
  unfold Date_neqb. destruct (Date_eq_dec d1 d2); split; congruence.
Qed.

(** The checks of [validate()] as a decision list. *)
Lemma ForwardOptionArguments_validate_cases (a : ForwardOptionArguments) :
  ArgumentsType_validate a = Passed ->
  ForwardOptionArguments_validate a =
    if moneyness a =? Null_double
    then Failed "ForwardOptionArguments::validate() : null moneyness given"
    else if negb (0 <? moneyness a)
    then Failed "ForwardOptionArguments::validate() : negative or zero moneyness given"
    else if negb (Date_neqb (resetDate a) Null_Date)
    then Failed "ForwardOptionArguments::validate() : null reset date given"
    else if negb (0 <=? resetTime_of a)
    then Failed "ForwardOptionArguments::validate() : negative reset time given"
    else if negb (resetTime_of a <=? maturity a)
    then Failed "ForwardOptionArguments::validate() : reset time greater than maturity"
    else Passed.
Proof.
  intro B. unfold ForwardOptionArguments_validate, QL_REQUIRE, resetTime_of.
  rewrite B.
  destruct (moneyness a =? Null_double); simpl; [reflexivity|].
  destruct (0 <? moneyness a); simpl; [|reflexivity].
  destruct (Date_neqb (resetDate a) Null_Date); simpl; [|reflexivity].
  destruct (0 <=? _); simpl; [|reflexivity].
  destruct (_ <=? maturity a); reflexivity.
Qed.

Ltac validate_branch :=
  repeat match goal with
         | |- _ /\ _ => split
         | |- _ <-> _ => split
         | |- forall _, _ => intro
         | H : exists _, _ |- _ => destruct H
         | H : Failed _ = Failed _ |- _ => injection H as <-
         end;
  try discriminate; try (eexists; reflexivity);
  try (intuition (try discriminate; try congruence; auto)).

(** C3 (as amended).  Given valid base fields, [validate()] throws
    exactly when the moneyness is null, or is not [> 0] (it is [<= 0] or
    a NaN), or the reset date is null, or the reset time is not [>= 0]
    (negative or a NaN), or the maturity is not [>=] the reset time (the
    reset time exceeds it, or one of the two is a NaN); otherwise it
    returns.  The checks are made in this order and the message thrown
    is that of the first one that fails: each message is thrown exactly
    when its check fails and every check before it has passed. *)
Theorem ForwardOptionArguments_validate_raises_iff
        (a : ForwardOptionArguments) :
  ArgumentsType_validate a = Passed ->
  let null_moneyness := (moneyness a =? Null_double) = true in
  let bad_moneyness :=
    (moneyness a <=? 0) = true \/ is_nan (moneyness a) = true in
  let null_reset := resetDate a = Null_Date in
  let bad_reset :=
    (resetTime_of a <? 0) = true \/ is_nan (resetTime_of a) = true in
  let late_reset :=
    (maturity a <? resetTime_of a) = true \/
    is_nan (resetTime_of a) = true \/ is_nan (maturity a) = true in
  (raises (ForwardOptionArguments_validate a) <->
   null_moneyness \/ bad_moneyness \/ null_reset \/ bad_reset \/ late_reset)
  /\
  (ForwardOptionArguments_validate a = Passed <->
   ~ (null_moneyness \/ bad_moneyness \/ null_reset \/ bad_reset \/
      late_reset))
  /\
  (forall what, ForwardOptionArguments_validate a = Failed what <->
     (what = "ForwardOptionArguments::validate() : null moneyness given"%string
      /\ null_moneyness) \/
     (what = "ForwardOptionArguments::validate() : negative or zero moneyness given"%string
      /\ ~ null_moneyness /\ bad_moneyness) \/
     (what = "ForwardOptionArguments::validate() : null reset date given"%string
      /\ ~ null_moneyness /\ ~ bad_moneyness /\ null_reset) \/
     (what = "ForwardOptionArguments::validate() : negative reset time given"%string
      /\ ~ null_moneyness /\ ~ bad_moneyness /\ ~ null_reset /\ bad_reset) \/
     (what = "ForwardOptionArguments::validate() : reset time greater than maturity"%string
      /\ ~ null_moneyness /\ ~ bad_moneyness /\ ~ null_reset /\
         ~ bad_reset /\ late_reset)).
Proof.
  intros B. cbv zeta.
  rewrite (ForwardOptionArguments_validate_cases a B). unfold raises.
  pose proof (ltb_false_iff 0 (moneyness a)) as M.
  pose proof (Date_neqb_false (resetDate a) Null_Date) as D.
  pose proof (leb_false_iff 0 (resetTime_of a)) as R.
  pose proof (leb_false_iff (resetTime_of a) (maturity a)) as L.
  assert (Z0 : is_nan 0 = false) by reflexivity.
  rewrite Z0 in M, R. clear Z0.
  assert (F : false = true -> False) by discriminate.
  destruct (moneyness a =? Null_double) eqn:E1; simpl;
    [validate_branch|].
  destruct (0 <? moneyness a) eqn:E2; simpl; [|validate_branch].
  destruct (Date_neqb (resetDate a) Null_Date) eqn:E3; simpl;
    [|validate_branch].
  destruct (0 <=? resetTime_of a) eqn:E4; simpl; [|validate_branch].
  destruct (resetTime_of a <=? maturity a) eqn:E5; simpl; validate_branch.
Qed.

(** On states whose moneyness, reset time and maturity are numbers, the
    rejection condition is the one read on the reals. *)
Lemma ForwardOptionArguments_validate_on_numbers
      (a : ForwardOptionArguments) :
  ArgumentsType_validate a = Passed ->
  is_nan (moneyness a) = false ->
  is_nan (resetTime_of a) = false ->
  is_nan (maturity a) = false ->
  raises (ForwardOptionArguments_validate a) <-> rejected_on_reals a.
Proof.
  intros B Nm Nr Nt.
  rewrite (ForwardOptionArguments_validate_cases a B).
  unfold raises, rejected_on_reals.
  pose proof (ltb_false_iff 0 (moneyness a)) as M.
  pose proof (Date_neqb_false (resetDate a) Null_Date) as D.
  pose proof (leb_false_iff 0 (resetTime_of a)) as R.
  pose proof (leb_false_iff (resetTime_of a) (maturity a)) as L.
  assert (Z0 : is_nan 0 = false) by reflexivity.
  rewrite Z0, ?Nm, ?Nr in M, R. rewrite Nr, Nt in L. clear Z0.
  assert (F : false = true -> False) by discriminate.
  destruct (moneyness a =? Null_double) eqn:E1; simpl;
    [validate_branch|].
  destruct (0 <? moneyness a) eqn:E2; simpl; [|validate_branch].
  destruct (Date_neqb (resetDate a) Null_Date) eqn:E3; simpl;
    [|validate_branch].
  destruct (0 <=? resetTime_of a) eqn:E4; simpl; [|validate_branch].
  destruct (resetTime_of a <=? maturity a) eqn:E5; simpl; validate_branch.
Qed.

End ValidateProperties.

Section ValidateExamples.
Import Stub.

(** The amended statement at the forward-starting call of the scenario
  with a NaN moneyness: the base fields are valid and [validate()]
  throws. *)
Lemma ForwardOptionArguments_validate_raises_iff_witness :
ArgumentsType_validate Scenario.nan_moneyness = Passed /\
raises (ForwardOptionArguments_validate Scenario.nan_moneyness).
Proof.
assert (B : ArgumentsType_validate Scenario.nan_moneyness = Passed)
  by reflexivity.
split; [exact B|].
apply (ForwardOptionArguments_validate_raises_iff Scenario.nan_moneyness B).
right. left. right. reflexivity.
Defined.

(** C3 as stated fails: with a NaN moneyness and valid base fields
  [validate()] throws, although the moneyness is neither null nor
  [<= 0], the reset date is not null, and the reset time is neither
  negative nor beyond the maturity. *)
Lemma validate_rejects_nan_moneyness :
ArgumentsType_validate Scenario.nan_moneyness = Passed /\
ForwardOptionArguments_validate Scenario.nan_moneyness =
  Failed "ForwardOptionArguments::validate() : negative or zero moneyness given" /\
~ rejected_on_reals Scenario.nan_moneyness.
Proof.
split; [reflexivity|]. split; [reflexivity|].
intros [E|[E|[E|[E|E]]]]; vm_compute in E; discriminate.
Qed.

End ValidateExamples.

(** ** The forward engine *)

Section ForwardEngineProperties.
Context `{TemplateParameters} {State : Type} {Engine : PricingEngine State}.

Lemma setOriginalArguments_run (fe : ForwardEngine State) :
  originalArguments_ fe = to_engine_member ->
  ForwardEngine_setOriginalArguments fe =
    match ArgumentsType_validate (original_arguments_for (arguments_ fe)) with
    | Passed => Returns tt (with_original_arguments fe)
    | Failed what => Throws what (with_original_arguments fe)
    end.
Proof.
  destruct fe as [a r e pa pr]. cbn. intros ->.
  unfold ForwardEngine_setOriginalArguments, bind,
    assign_originalArguments, originalArguments_validate,
    with_original_arguments, original_arguments_for, run_checked.
  cbn. destruct (ArgumentsType_validate _); reflexivity.
Qed.

Lemma setOriginalArguments_null (fe : ForwardEngine State) :
  originalArguments_ fe = null ->
  ForwardEngine_setOriginalArguments fe = Undefined null_pointer_dereference.
Proof.
  intro P.
  unfold ForwardEngine_setOriginalArguments, bind, assign_originalArguments.
  now rewrite P.
Qed.

Lemma getOriginalResults_run (fe : ForwardEngine State) :
  originalResults_ fe = to_engine_member ->
  ForwardEngine_getOriginalResults fe =
    Returns tt
      (set_results_
         (forward_results (arguments_ fe)
                          (engine_results_ (originalEngine_ fe))
                          (results_ fe))
         fe).
Proof.
  destruct fe as [a r e pa pr]. cbn. intros ->. reflexivity.
Qed.

Lemma getOriginalResults_null (fe : ForwardEngine State) :
  originalResults_ fe = null ->
  ForwardEngine_getOriginalResults fe = Undefined null_pointer_dereference.
Proof.
  intro P.
  unfold ForwardEngine_getOriginalResults, bind, gets, originalResults.
  now rewrite P.
Qed.

Lemma performance_getOriginalResults_run (fe : ForwardEngine State) :
  originalResults_ fe = to_engine_member ->
  ForwardPerformanceEngine_getOriginalResults fe =
    Returns tt
      (set_results_
         (performance_results (arguments_ fe)
                              (engine_results_ (originalEngine_ fe))
                              (results_ fe))
         fe).
Proof.
  destruct fe as [a r e pa pr]. cbn. intros ->. reflexivity.
Qed.

Lemma performance_getOriginalResults_null (fe : ForwardEngine State) :
  originalResults_ fe = null ->
  ForwardPerformanceEngine_getOriginalResults fe =
    Undefined null_pointer_dereference.
Proof.
  intro P.
  unfold ForwardPerformanceEngine_getOriginalResults, bind, gets,
    originalResults.
  now rewrite P.
Qed.

(** With an underlying at zero the results computed have no finite
    value. *)
Lemma performance_results_not_finite
      (a : ForwardOptionArguments) (o r : ResultsType) :
  (underlying a =? 0) = true ->
  no_finite_results (performance_results a o r).
Proof.
  intro U. unfold no_finite_results, performance_results. cbn.
  pose proof (div_by_zero_not_finite
                (discount (riskFreeTS a) (resetDate a)) _ U) as D.
  repeat split.
  - now apply mul_not_finite_l.
  - apply mul_not_finite_r. now apply mul_not_finite_l.
  - now apply mul_not_finite_l.
  - apply add_not_finite_r. now apply mul_not_finite_l.
  - now apply mul_not_finite_l.
Qed.

End ForwardEngineProperties.

(** ** Results of the decorators *)

Section Results.
Context `{TemplateParameters} {State : Type}.

(** C1.  [ForwardEngine::getOriginalResults()] returns, for every state
    of the decorator (whether or not its arguments validate) whose view
    of the wrapped results is resolved, and sets the results to
    [value = discQ * wrapped.value],
    [delta = discQ * (wrapped.delta + moneyness * wrapped.strikeSensitivity)],
    [gamma = 0], [theta = dividend zeroYield(resetDate) * value],
    [vega = discQ * wrapped.vega], [rho = discQ * wrapped.rho] and
    [dividendRho = - resetTime * value + discQ * wrapped.dividendRho],
    with [discQ] the discount of the dividend curve at the reset date
    and [resetTime] the year fraction from the reference date of the
    risk-free curve to the reset date; it changes nothing else. *)
Theorem ForwardEngine_getOriginalResults_sets (fe : ForwardEngine State) :
  originalResults_ fe = to_engine_member ->
  let a := arguments_ fe in
  let wrapped := engine_results_ (originalEngine_ fe) in
  let discQ := discount (dividendTS a) (resetDate a) in
  let resetTime :=
    yearFraction (dayCounter (riskFreeTS a))
                 (referenceDate (riskFreeTS a)) (resetDate a) in
  exists fe' : ForwardEngine State,
    ForwardEngine_getOriginalResults fe = Returns tt fe' /\
    value (results_ fe') = discQ * value wrapped /\
    delta (results_ fe') =
      discQ * (delta wrapped + moneyness a * strikeSensitivity wrapped) /\
    gamma (results_ fe') = 0 /\
    theta (results_ fe') =
      zeroYield (dividendTS a) (resetDate a) * value (results_ fe') /\
    vega (results_ fe') = discQ * vega wrapped /\
    rho (results_ fe') = discQ * rho wrapped /\
    dividendRho (results_ fe') =
      - resetTime * value (results_ fe') + discQ * dividendRho wrapped /\
    strikeSensitivity (results_ fe') = strikeSensitivity (results_ fe) /\
    arguments_ fe' = arguments_ fe /\
    originalEngine_ fe' = originalEngine_ fe /\
    originalArguments_ fe' = originalArguments_ fe /\
    originalResults_ fe' = originalResults_ fe.
Proof.
  intros P a wrapped discQ resetTime.
  eexists. split; [exact (getOriginalResults_run fe P)|].
  cbn. repeat split; reflexivity.
Qed.

(** C2.  [ForwardPerformanceEngine::getOriginalResults()] returns, for
    every state of the decorator (whether or not its arguments validate,
    and whatever its underlying) whose view of the wrapped results is
    resolved, and sets the results to
    [value = discR * wrapped.value], [delta = 0], [gamma = 0],
    [theta = risk-free zeroYield(resetDate) * value],
    [vega = discR * wrapped.vega],
    [rho = - resetTime * value + discR * wrapped.rho] and
    [dividendRho = discR * wrapped.dividendRho], with [discR] the
    discount of the risk-free curve at the reset date divided by the
    underlying, in binary64 arithmetic; it changes nothing else. *)
Theorem ForwardPerformanceEngine_getOriginalResults_sets
        (fe : ForwardEngine State) :
  originalResults_ fe = to_engine_member ->
  let a := arguments_ fe in
  let wrapped := engine_results_ (originalEngine_ fe) in
  let discR := discount (riskFreeTS a) (resetDate a) / underlying a in
  let resetTime :=
    yearFraction (dayCounter (riskFreeTS a))
                 (referenceDate (riskFreeTS a)) (resetDate a) in
  exists fe' : ForwardEngine State,
    ForwardPerformanceEngine_getOriginalResults fe = Returns tt fe' /\
    value (results_ fe') = discR * value wrapped /\
    delta (results_ fe') = 0 /\
    gamma (results_ fe') = 0 /\
    theta (results_ fe') =
      zeroYield (riskFreeTS a) (resetDate a) * value (results_ fe') /\
    vega (results_ fe') = discR * vega wrapped /\
    rho (results_ fe') =
      - resetTime * value (results_ fe') + discR * rho wrapped /\
    dividendRho (results_ fe') = discR * dividendRho wrapped /\
    strikeSensitivity (results_ fe') = strikeSensitivity (results_ fe) /\
    arguments_ fe' = arguments_ fe /\
    originalEngine_ fe' = originalEngine_ fe /\
    originalArguments_ fe' = originalArguments_ fe /\
    originalResults_ fe' = originalResults_ fe.
Proof.
  intros P a wrapped discR resetTime.
  eexists. split; [exact (performance_getOriginalResults_run fe P)|].
  cbn. repeat split; reflexivity.
Qed.

(** C6.  [ForwardEngine::setOriginalArguments()], for every state of
    the decorator whose view of the wrapped arguments is resolved,
    copies the option type, the underlying, the exercise type, the
    stopping times and the maturity into the wrapped arguments, sets
    the wrapped strike to [moneyness * underlying], replaces the wrapped
    dividend curve, risk-free curve and volatility surface with implied
    ones constructed at the reset date, and then runs [validate()] on the
    wrapped arguments: it returns when that passes and throws the same
    error when that fails.  In both cases the decorator's own arguments
    and results, and the wrapped results, are as before. *)
Theorem ForwardEngine_setOriginalArguments_sets (fe : ForwardEngine State) :
  originalArguments_ fe = to_engine_member ->
  let a := arguments_ fe in
  exists fe' : ForwardEngine State,
    let wrapped := engine_arguments_ (originalEngine_ fe') in
    ForwardEngine_setOriginalArguments fe =
      match ArgumentsType_validate wrapped with
      | Passed => Returns tt fe'
      | Failed what => Throws what fe'
      end /\
    type wrapped = type a /\
    underlying wrapped = underlying a /\
    exerciseType wrapped = exerciseType a /\
    stoppingTimes wrapped = stoppingTimes a /\
    maturity wrapped = maturity a /\
    strike wrapped = moneyness a * underlying a /\
    dividendTS wrapped =
      ImpliedTermStructure (dividendTS a) (resetDate a) (resetDate a) /\
    riskFreeTS wrapped =
      ImpliedTermStructure (riskFreeTS a) (resetDate a) (resetDate a) /\
    volTS wrapped = ImpliedVolTermStructure (volTS a) (resetDate a) /\
    arguments_ fe' = arguments_ fe /\
    results_ fe' = results_ fe /\
    engine_results_ (originalEngine_ fe') =
      engine_results_ (originalEngine_ fe) /\
    engine_state (originalEngine_ fe') = engine_state (originalEngine_ fe) /\
    originalArguments_ fe' = originalArguments_ fe /\
    originalResults_ fe' = originalResults_ fe.
Proof.
  intros P a.
  exists (with_original_arguments fe).
  split; [exact (setOriginalArguments_run fe P)|].
  cbn. repeat split; reflexivity.
Qed.

End Results.

Section ResultsExamples.
Import Stub.

(** C1 at the forward-starting call of the scenario. *)
Lemma ForwardEngine_getOriginalResults_sets_witness :
  ForwardOptionArguments_validate (arguments_ Scenario.priced) = Passed /\
  originalResults_ Scenario.priced = to_engine_member /\
  exists fe' : ForwardEngine unit,
    ForwardEngine_getOriginalResults Scenario.priced = Returns tt fe' /\
    value (results_ fe') = 0.98 * 10 /\
    delta (results_ fe') = 0.98 * (0.5 + 1 * -0.3) /\
    gamma (results_ fe') = 0.
Proof.
  split; [reflexivity|]. split; [reflexivity|].
  destruct (ForwardEngine_getOriginalResults_sets Scenario.priced eq_refl)
    as (fe' & R & V & D & G & _).
  exists fe'. repeat split; assumption.
Defined.

(** The numbers of the scenario: wrapped value 10, delta 0.5 and strike
    sensitivity -0.3 under a dividend discount of 0.98 and a moneyness of
    1 give the value 9.8, the delta 0.196 and the gamma 0. *)
Example getOriginalResults_forward_call :
  exists fe' : ForwardEngine unit,
    ForwardEngine_getOriginalResults Scenario.priced = Returns tt fe' /\
    value (results_ fe') = 9.8 /\
    delta (results_ fe') = 0.196 /\
    gamma (results_ fe') = 0.
Proof.
  eexists. split; [apply getOriginalResults_run; reflexivity|].
  repeat split; reflexivity.
Qed.

(** C2 at the same state. *)
Lemma ForwardPerformanceEngine_getOriginalResults_sets_witness :
  ForwardOptionArguments_validate (arguments_ Scenario.priced) = Passed /\
  originalResults_ Scenario.priced = to_engine_member /\
  exists fe' : ForwardEngine unit,
    ForwardPerformanceEngine_getOriginalResults Scenario.priced =
      Returns tt fe' /\
    value (results_ fe') = 0.975 / 100 * 10 /\
    delta (results_ fe') = 0.
Proof.
  split; [reflexivity|]. split; [reflexivity|].
  destruct (ForwardPerformanceEngine_getOriginalResults_sets
              Scenario.priced eq_refl)
    as (fe' & R & V & D & _).
  exists fe'. repeat split; assumption.
Defined.

(** C6 at the same state: the wrapped strike becomes [1 * 100] and the
    wrapped [validate()] passes. *)
Lemma ForwardEngine_setOriginalArguments_sets_witness :
  ForwardOptionArguments_validate (arguments_ Scenario.priced) = Passed /\
  originalArguments_ Scenario.priced = to_engine_member /\
  exists fe' : ForwardEngine unit,
    ForwardEngine_setOriginalArguments Scenario.priced = Returns tt fe' /\
    strike (engine_arguments_ (originalEngine_ fe')) = 1 * 100 /\
    results_ fe' = results_ Scenario.priced.
Proof.
  split; [reflexivity|]. split; [reflexivity|].
  destruct (ForwardEngine_setOriginalArguments_sets Scenario.priced eq_refl)
    as (fe' & R & T & U & E & S & M & K & _ & _ & _ & A & Q & _).
  exists fe'. cbv zeta in R.
  assert (V : ArgumentsType_validate
                (engine_arguments_ (originalEngine_ fe')) = Passed).
  { unfold ArgumentsType_validate, vanilla, QL_REQUIRE.
    rewrite U, K. reflexivity. }
  rewrite V in R.
  repeat split; assumption.
Defined.

End ResultsExamples.

(** ** The sequence of [calculate()] *)

Section CalculateRuns.
Context `{TemplateParameters} {State : Type} {Engine : PricingEngine State}.

Lemma ForwardEngine_calculate_run (fe : ForwardEngine State) :
  originalArguments_ fe = to_engine_member ->
  let a' := original_arguments_for (arguments_ fe) in
  let e := set_engine_arguments_ a' (reset (originalEngine_ fe)) in
  ForwardEngine_calculate fe =
    match ArgumentsType_validate a' with
    | Failed what => Throws what (set_originalEngine_ e fe)
    | Passed => then_calculate ForwardEngine_getOriginalResults e fe
    end.
Proof.
  destruct fe as [a r e0 pa pr]. cbn. intros ->.
  unfold ForwardEngine_calculate, bind, originalEngine_reset, modify.
  rewrite setOriginalArguments_run by reflexivity. cbn.
  destruct (ArgumentsType_validate _); [|reflexivity].
  unfold originalEngine_calculate, on_member, then_calculate. cbn.
  destruct (calculate _); reflexivity.
Qed.

Lemma ForwardPerformanceEngine_calculate_run (fe : ForwardEngine State) :
  originalArguments_ fe = to_engine_member ->
  let a' := original_arguments_for (arguments_ fe) in
  let e := set_engine_arguments_ a' (originalEngine_ fe) in
  ForwardPerformanceEngine_calculate fe =
    match ArgumentsType_validate a' with
    | Failed what => Throws what (set_originalEngine_ e fe)
    | Passed =>
        then_calculate ForwardPerformanceEngine_getOriginalResults e fe
    end.
Proof.
  destruct fe as [a r e0 pa pr]. cbn. intros ->.
  unfold ForwardPerformanceEngine_calculate, bind.
  rewrite setOriginalArguments_run by reflexivity. cbn.
  destruct (ArgumentsType_validate _); [|reflexivity].
  unfold originalEngine_calculate, on_member, then_calculate. cbn.
  destruct (calculate _); reflexivity.
Qed.

End CalculateRuns.

Section CallOrder.
Context `{TemplateParameters} {State : Type} {Engine : PricingEngine State}.

Lemma spy_calculate (e : GenericEngine (Spied State)) :
  calculate (PricingEngine := spy) e =
    let log :=
      calls (engine_state e) ++
      [called_calculate (engine_arguments_ e) (engine_results_ e)] in
    match calculate (inner e) with
    | Returns a i => Returns a (outer log i)
    | Throws what i => Throws what (outer log i)
    | Undefined ub => Undefined ub
    end.
Proof. reflexivity. Qed.

Lemma spy_reset (e : GenericEngine (Spied State)) :
  reset (PricingEngine := spy) e =
    outer (calls (engine_state e) ++ [called_reset]) (reset (inner e)).
Proof. reflexivity. Qed.

Lemma inner_set_arguments (a : ArgumentsType)
      (e : GenericEngine (Spied State)) :
  inner (set_engine_arguments_ a e) = set_engine_arguments_ a (inner e).
Proof. reflexivity. Qed.

Lemma inner_outer (log : list call) (e : GenericEngine State) :
  inner (outer log e) = e.
Proof. now destruct e. Qed.

(** C4.  Run on a wrapped engine whose calls are recorded, with the
    views resolved, the wrapped [validate()] passing and the wrapped
    [calculate()] returning:
    [ForwardEngine::calculate()] calls [reset()] on the wrapped engine,
    then sets the wrapped arguments, then calls the wrapped
    [calculate()] (which finds the arguments set and the results as
    [reset()] left them), then runs [getOriginalResults()] on the state
    the wrapped engine left;
    [ForwardPerformanceEngine::calculate()] does the same without the
    call of [reset()], so the wrapped [calculate()] finds the results of
    the wrapped engine as they were before the call. *)
Theorem calculate_call_order
        (fe : ForwardEngine (Spied State)) (e3 e3' : GenericEngine State) :
  originalArguments_ fe = to_engine_member ->
  let a' := original_arguments_for (arguments_ fe) in
  let e0 := originalEngine_ fe in
  let log0 := calls (engine_state e0) in
  ArgumentsType_validate a' = Passed ->
  calculate (set_engine_arguments_ a' (reset (inner e0))) = Returns tt e3 ->
  calculate (set_engine_arguments_ a' (inner e0)) = Returns tt e3' ->
  ForwardEngine_calculate (Engine := spy) fe =
    ForwardEngine_getOriginalResults
      (set_originalEngine_
         (outer (log0 ++
                 [called_reset;
                  called_calculate a' (engine_results_ (reset (inner e0)))])
                e3)
         fe)
  /\
  ForwardPerformanceEngine_calculate (Engine := spy) fe =
    ForwardPerformanceEngine_getOriginalResults
      (set_originalEngine_
         (outer (log0 ++ [called_calculate a' (engine_results_ e0)]) e3')
         fe).
Proof.
  intros P a' e0 log0 V C C'. split.
  - rewrite (ForwardEngine_calculate_run (Engine := spy) fe P).
    fold a'. rewrite V. unfold then_calculate.
    rewrite spy_calculate, inner_set_arguments, spy_reset, inner_outer.
    fold e0. rewrite C. cbn. fold e0 log0. now rewrite <- app_assoc.
  - rewrite (ForwardPerformanceEngine_calculate_run (Engine := spy) fe P).
    fold a'. rewrite V. unfold then_calculate.
    rewrite spy_calculate, inner_set_arguments.
    fold e0. rewrite C'. reflexivity.
Qed.

(** X11.  When the wrapped [validate()] fails, [ForwardEngine::calculate()]
    has called [reset()] and nothing else; the performance decorator
    has called nothing. *)
Lemma calculate_call_order_invalid
      (fe : ForwardEngine (Spied State)) (what : string) :
  originalArguments_ fe = to_engine_member ->
  let a' := original_arguments_for (arguments_ fe) in
  let e0 := originalEngine_ fe in
  ArgumentsType_validate a' = Failed what ->
  ForwardEngine_calculate (Engine := spy) fe =
    Throws what
      (set_originalEngine_
         (outer (calls (engine_state e0) ++ [called_reset])
                (set_engine_arguments_ a' (reset (inner e0))))
         fe)
  /\
  ForwardPerformanceEngine_calculate (Engine := spy) fe =
    Throws what
      (set_originalEngine_
         (outer (calls (engine_state e0))
                (set_engine_arguments_ a' (inner e0)))
         fe).
Proof.
  intros P a' e0 V. split.
  - rewrite (ForwardEngine_calculate_run (Engine := spy) fe P).
    fold a'. rewrite V. reflexivity.
  - rewrite (ForwardPerformanceEngine_calculate_run (Engine := spy) fe P).
    fold a'. rewrite V. destruct fe as [a r [ea er [s l]] pa pr].
    reflexivity.
Qed.

End CallOrder.

Section CallOrderExamples.
Import Stub.

(** C4 at the forward-starting call of the scenario around the engine
    with fixed results: the calls recorded are [reset()] and then
    [calculate()] for the forward engine, and [calculate()] alone, on
    the results left in place, for the performance engine. *)
Lemma calculate_call_order_witness :
  originalArguments_ Scenario.observed = to_engine_member /\
  ArgumentsType_validate
    (original_arguments_for (arguments_ Scenario.observed)) = Passed /\
  (exists fe' : ForwardEngine (Spied unit),
     ForwardEngine_calculate (Engine := spy (Engine := fixed_engine))
                             Scenario.observed = Returns tt fe' /\
     calls (engine_state (originalEngine_ fe')) =
       [called_reset;
        called_calculate
          (original_arguments_for (arguments_ Scenario.observed)) unset]) /\
  (exists fe' : ForwardEngine (Spied unit),
     ForwardPerformanceEngine_calculate
       (Engine := spy (Engine := fixed_engine))
       Scenario.observed = Returns tt fe' /\
     calls (engine_state (originalEngine_ fe')) =
       [called_calculate
          (original_arguments_for (arguments_ Scenario.observed)) unset]).
Proof.
  assert (V : ArgumentsType_validate
                (original_arguments_for (arguments_ Scenario.observed))
              = Passed) by reflexivity.
  destruct (calculate_call_order (Engine := fixed_engine)
              Scenario.observed _ _ eq_refl V eq_refl eq_refl) as [F P].
  split; [reflexivity|]. split; [exact V|]. split.
  - eexists. split.
    + rewrite F. apply getOriginalResults_run. reflexivity.
    + reflexivity.
  - eexists. split.
    + rewrite P. apply performance_getOriginalResults_run; reflexivity.
    + reflexivity.
Defined.

End CallOrderExamples.

(** ** Construction of the decorator *)

Section Construction.
Context `{TemplateParameters} {State : Type} {Engine : PricingEngine State}.

(** The constructor throws on a null handle only; on a linked handle
    it stores whatever the two casts give. *)
Lemma ForwardEngine_new_outcome (h : Handle (GenericEngine State)) :
  match h with
  | None => exists what, ForwardEngine_new h = Construction_failed what
  | Some e =>
      exists fe, ForwardEngine_new h = Constructed fe /\
                 originalEngine_ fe = e /\
                 originalArguments_ fe = dynamic_cast arguments /\
                 originalResults_ fe = dynamic_cast results
  end.
Proof.
  destruct h as [e|]; cbn; eexists; [|reflexivity].
  repeat split; reflexivity.
Qed.

End Construction.

Section ConstructionExamples.
Import Stub.

(** C5 at an engine whose [results()] cannot be cast to [ResultsType]:
    the constructor returns a decorator whose view of the wrapped results
    is null, and [getOriginalResults()] on it dereferences that null
    pointer. *)
Lemma ForwardEngine_new_keeps_null_view :
  exists fe : ForwardEngine unit,
    ForwardEngine_new (Engine := foreign_engine) Scenario.foreign =
      Constructed fe /\
    originalArguments_ fe = to_engine_member /\
    originalResults_ fe = null /\
    ForwardEngine_getOriginalResults fe =
      Undefined null_pointer_dereference.
Proof.
  eexists. split; [reflexivity|]. repeat split; reflexivity.
Qed.

End ConstructionExamples.

(** ** Division by the underlying in the performance decorator *)

Section Underlying.
Context `{TemplateParameters} {State : Type} {Engine : PricingEngine State}.

Lemma ForwardEngine_calculate_null (fe : ForwardEngine State) :
  originalArguments_ fe = null ->
  ForwardEngine_calculate fe = Undefined null_pointer_dereference.
Proof.
  intro P.
  unfold ForwardEngine_calculate, bind, originalEngine_reset, modify.
  now rewrite setOriginalArguments_null.
Qed.

Lemma ForwardPerformanceEngine_calculate_null (fe : ForwardEngine State) :
  originalArguments_ fe = null ->
  ForwardPerformanceEngine_calculate fe = Undefined null_pointer_dereference.
Proof.
  intro P. unfold ForwardPerformanceEngine_calculate, bind.
  now rewrite setOriginalArguments_null.
Qed.

(** The checks that [ForwardOptionArguments::validate()] adds to those
    of its base read the moneyness, the reset date, the risk-free curve
    and the maturity, and nothing else. *)
Lemma ForwardOptionArguments_validate_reads
      (a : ForwardOptionArguments) (b : ArgumentsType) :
  ArgumentsType_validate a = Passed ->
  ArgumentsType_validate b = Passed ->
  riskFreeTS b = riskFreeTS a ->
  maturity b = maturity a ->
  ForwardOptionArguments_validate (set_base b a) =
  ForwardOptionArguments_validate a.
Proof.
  intros Va Vb R T. unfold ForwardOptionArguments_validate.
  cbn. rewrite Va, Vb, R, T. reflexivity.
Qed.

(** C10 (as amended).  [ForwardPerformanceEngine::getOriginalResults()]
    divides by the underlying with no guard.  In a state whose underlying
    is zero, of either sign, the quotient is an infinity or a NaN;
    [getOriginalResults()] returns all the same, and so does
    [calculate()] whenever the views are resolved, the wrapped
    [validate()] passes and the wrapped [calculate()] returns; the value,
    theta, vega, rho and dividend rho that it sets are infinite or NaN,
    the delta and the gamma zero.  The checks that
    [ForwardOptionArguments::validate()] adds to those of its base do not
    read the underlying, so they accept the state as they accept one with
    another underlying. *)
Theorem performance_calculate_divides_by_underlying
        (fe : ForwardEngine State) :
  (underlying (arguments_ fe) =? 0) = true ->
  let a := arguments_ fe in
  is_finite (discount (riskFreeTS a) (resetDate a) / underlying a) = false
  /\
  (originalResults_ fe = to_engine_member ->
   exists fe' : ForwardEngine State,
     ForwardPerformanceEngine_getOriginalResults fe = Returns tt fe' /\
     no_finite_results (results_ fe'))
  /\
  (forall e3 : GenericEngine State,
      originalArguments_ fe = to_engine_member ->
      originalResults_ fe = to_engine_member ->
      ArgumentsType_validate (original_arguments_for a) = Passed ->
      calculate (set_engine_arguments_ (original_arguments_for a)
                                       (originalEngine_ fe))
        = Returns tt e3 ->
      exists fe' : ForwardEngine State,
        ForwardPerformanceEngine_calculate fe = Returns tt fe' /\
        no_finite_results (results_ fe'))
  /\
  (forall b : ArgumentsType,
      ArgumentsType_validate a = Passed ->
      ArgumentsType_validate b = Passed ->
      riskFreeTS b = riskFreeTS a ->
      maturity b = maturity a ->
      ForwardOptionArguments_validate (set_base b a) =
      ForwardOptionArguments_validate a).
Proof.
  intros U a.
  split; [now apply div_by_zero_not_finite|].
  split; [|split].
  - intros P. eexists.
    split; [exact (performance_getOriginalResults_run fe P)|].
    cbn. now apply performance_results_not_finite.
  - intros e3 Pa Pr V C.
    rewrite (ForwardPerformanceEngine_calculate_run fe Pa).
    fold a. rewrite V. unfold then_calculate. rewrite C.
    eexists.
    split; [apply performance_getOriginalResults_run; now destruct fe|].
    cbn. apply performance_results_not_finite. now destruct fe.
  - intros b Va Vb R T.
    now apply ForwardOptionArguments_validate_reads.
Qed.

End Underlying.

Section UnderlyingExamples.
Import Stub.

(** C10 (as amended) at the forward-starting call on an underlying at
    zero, with a wrapped [validate()] that accepts every state: the
    arguments validate, and [calculate()] returns results without a
    finite value. *)
Lemma performance_calculate_divides_by_underlying_witness :
  (underlying (arguments_ Scenario.degenerate) =? 0) = true /\
  ForwardOptionArguments_validate (H0 := lenient)
    (arguments_ Scenario.degenerate) = Passed /\
  exists fe' : ForwardEngine unit,
    ForwardPerformanceEngine_calculate
      (H0 := lenient) (Engine := fixed_engine (H0 := lenient))
      Scenario.degenerate = Returns tt fe' /\
    no_finite_results (results_ fe').
Proof.
  split; [reflexivity|]. split; [reflexivity|].
  destruct (performance_calculate_divides_by_underlying
              (H0 := lenient) (Engine := fixed_engine (H0 := lenient))
              Scenario.degenerate eq_refl) as (_ & _ & C & _).
  exact (C _ eq_refl eq_refl eq_refl eq_refl).
Defined.

(** C10 as stated fails: on an underlying at zero the division is the
    IEEE one and no error is reached; [calculate()] returns, with an
    infinite value and a rho that is a NaN. *)
Lemma performance_calculate_returns_at_zero_underlying :
  (underlying (arguments_ Scenario.degenerate) =? 0) = true /\
  exists fe' : ForwardEngine unit,
    ForwardPerformanceEngine_calculate
      (H0 := lenient) (Engine := fixed_engine (H0 := lenient))
      Scenario.degenerate = Returns tt fe' /\
    value (results_ fe') = infinity /\
    is_nan (rho (results_ fe')) = true /\
    delta (results_ fe') = 0.
Proof.
  split; [reflexivity|].
  eexists. split; [vm_compute; reflexivity|].
repeat split; reflexivity.
Qed.

End UnderlyingExamples.

(** ** Two consecutive calls of [calculate()] *)

Section Returns.
Context `{TemplateParameters} {State : Type} {Engine : PricingEngine State}.

Lemma getOriginalResults_returns_inv (fe fe1 : ForwardEngine State) :
  ForwardEngine_getOriginalResults fe = Returns tt fe1 ->
  originalResults_ fe = to_engine_member.
Proof.
  intro R. destruct (originalResults_ fe) eqn:P; [|reflexivity].
  rewrite (getOriginalResults_null fe P) in R. discriminate.
Qed.

Lemma performance_getOriginalResults_returns_inv
      (fe fe1 : ForwardEngine State) :
  ForwardPerformanceEngine_getOriginalResults fe = Returns tt fe1 ->
  originalResults_ fe = to_engine_member.
Proof.
  intro R. destruct (originalResults_ fe) eqn:P; [|reflexivity].
  rewrite (performance_getOriginalResults_null fe P) in R. discriminate.
Qed.

Lemma ForwardEngine_calculate_returns_iff (fe fe1 : ForwardEngine State) :
  ForwardEngine_calculate fe = Returns tt fe1 <->
  originalArguments_ fe = to_engine_member /\
  originalResults_ fe = to_engine_member /\
  ArgumentsType_validate (original_arguments_for (arguments_ fe)) = Passed /\
  exists e3 : GenericEngine State,
    calculate (set_engine_arguments_
                 (original_arguments_for (arguments_ fe))
                 (reset (originalEngine_ fe))) = Returns tt e3 /\
    fe1 = forward_state e3 fe.
Proof.
  split.
  - intro R.
    destruct (originalArguments_ fe) eqn:P.
    { rewrite (ForwardEngine_calculate_null fe P) in R. discriminate. }
    rewrite (ForwardEngine_calculate_run fe P) in R.
    destruct (ArgumentsType_validate _) eqn:V; [|discriminate].
    unfold then_calculate in R.
    destruct (calculate _) as [[] e3| |] eqn:C; try discriminate.
    pose proof (getOriginalResults_returns_inv _ _ R) as Q.
    rewrite (getOriginalResults_run _ Q) in R.
    injection R as <-.
    repeat split; trivial.
    exists e3. split; [reflexivity|]. now destruct fe.
  - intros (P & Q & V & e3 & C & ->).
    rewrite (ForwardEngine_calculate_run fe P), V.
    unfold then_calculate. rewrite C.
    rewrite getOriginalResults_run by (now destruct fe).
    now destruct fe.
Qed.

Lemma ForwardPerformanceEngine_calculate_returns_iff
      (fe fe1 : ForwardEngine State) :
  ForwardPerformanceEngine_calculate fe = Returns tt fe1 <->
  originalArguments_ fe = to_engine_member /\
  originalResults_ fe = to_engine_member /\
  ArgumentsType_validate (original_arguments_for (arguments_ fe)) = Passed /\
  exists e3 : GenericEngine State,
    calculate (set_engine_arguments_
                 (original_arguments_for (arguments_ fe))
                 (originalEngine_ fe)) = Returns tt e3 /\
    fe1 = performance_state e3 fe.
Proof.
  split.
  - intro R.
    destruct (originalArguments_ fe) eqn:P.
    { rewrite (ForwardPerformanceEngine_calculate_null fe P) in R.
      discriminate. }
    rewrite (ForwardPerformanceEngine_calculate_run fe P) in R.
    destruct (ArgumentsType_validate _) eqn:V; [|discriminate].
    unfold then_calculate in R.
    destruct (calculate _) as [[] e3| |] eqn:C; try discriminate.
    pose proof (performance_getOriginalResults_returns_inv _ _ R) as Q.
    rewrite (performance_getOriginalResults_run _ Q) in R.
    injection R as <-.
    repeat split; trivial.
    exists e3. split; [reflexivity|]. now destruct fe.
  - intros (P & Q & V & e3 & C & ->).
    rewrite (ForwardPerformanceEngine_calculate_run fe P), V.
    unfold then_calculate. rewrite C.
    rewrite performance_getOriginalResults_run by (now destruct fe).
    now destruct fe.
Qed.

End Returns.

(** ** The constructor of [McEuropean] *)

Section McEuropeanRuns.
Context {Option_Type : Type} `{MonteCarlo Option_Type}.

(** The three constructor calls behind a constructed pricer. *)
Lemma McEuropean_new_constructed_iff
      (type : Option_Type) (underlying strike : double)
      (dividendYield riskFreeRate : Rate) (residualTime volatility : double)
      (antitheticVariance : bool) (seed : Z) (mc : McEuropean) :
  McEuropean_new type underlying strike dividendYield riskFreeRate
                 residualTime volatility antitheticVariance seed
    = Constructed mc
  <->
  exists (pathGenerator : GaussianPathGenerator)
         (euroPathPricer : PathPricer) (model : MonteCarloModel),
    GaussianPathGenerator_new
      (riskFreeRate - dividendYield - 0.5 * volatility * volatility)
      (volatility * volatility) residualTime 1 seed
      = Constructed pathGenerator /\
    EuropeanPathPricer_new type underlying strike
                           (QL_EXP (- riskFreeRate * residualTime))
                           antitheticVariance
      = Constructed euroPathPricer /\
    MonteCarloModel_new (Some pathGenerator) (Some euroPathPricer)
                        Statistics_new
      = Constructed model /\
    mc = {| mcModel_ := Some model |}.
Proof.
  unfold McEuropean_new. split.
  - destruct (GaussianPathGenerator_new _ _ _ _ _) as [pg|];
      [|discriminate].
    destruct (EuropeanPathPricer_new _ _ _ _ _) as [pp|]; [|discriminate].
    destruct (MonteCarloModel_new _ _ _) as [m|] eqn:E; [|discriminate].
    intros [= <-]. exists pg, pp, m. repeat split; trivial.
  - intros (pg & pp & m & -> & -> & -> & ->). reflexivity.
Qed.

(** A failed construction is the failure of one of the three calls,
    with its message. *)
Lemma McEuropean_new_failed_iff
      (type : Option_Type) (underlying strike : double)
      (dividendYield riskFreeRate : Rate) (residualTime volatility : double)
      (antitheticVariance : bool) (seed : Z) (what : string) :
  McEuropean_new type underlying strike dividendYield riskFreeRate
                 residualTime volatility antitheticVariance seed
    = Construction_failed what
  <->
  let generator :=
    GaussianPathGenerator_new
      (riskFreeRate - dividendYield - 0.5 * volatility * volatility)
      (volatility * volatility) residualTime 1 seed in
  let pricer :=
    EuropeanPathPricer_new type underlying strike
                           (QL_EXP (- riskFreeRate * residualTime))
                           antitheticVariance in
  generator = Construction_failed what \/
  (exists pathGenerator,
      generator = Constructed pathGenerator /\
      (pricer = Construction_failed what \/
       exists euroPathPricer,
         pricer = Constructed euroPathPricer /\
         MonteCarloModel_new (Some pathGenerator) (Some euroPathPricer)
                             Statistics_new
           = Construction_failed what)).
Proof.
  unfold McEuropean_new. cbv zeta.
  destruct (GaussianPathGenerator_new _ _ _ _ _) as [pg|w1].
  2:{ split; [intros [= ->]; now left|].
      intros [[= ->]|(pg & E & _)]; [reflexivity|discriminate]. }
  destruct (EuropeanPathPricer_new _ _ _ _ _) as [pp|w2].
  2:{ split.
      - intros [= ->]. right. exists pg. split; [reflexivity|now left].
      - intros [E|(pg' & E & [[= ->]|(pp & E' & _)])];
          try discriminate; reflexivity. }
  split.
  - intro E. right. exists pg. split; [reflexivity|]. right.
    exists pp. split; [reflexivity|].
    destruct (MonteCarloModel_new _ _ _); [discriminate|].
    injection E as ->. reflexivity.
  - intros [E|(pg' & [= <-] & [E|(pp' & [= <-] & E)])]; try discriminate.
    now rewrite E.
Qed.

(** The volatility enters the constructor through its square only. *)
Lemma McEuropean_new_opp_volatility
      (type : Option_Type) (underlying strike : double)
      (dividendYield riskFreeRate : Rate) (residualTime volatility : double)
      (antitheticVariance : bool) (seed : Z) :
  McEuropean_new type underlying strike dividendYield riskFreeRate
                 residualTime (- volatility) antitheticVariance seed =
  McEuropean_new type underlying strike dividendYield riskFreeRate
                 residualTime volatility antitheticVariance seed.
Proof.
  unfold McEuropean_new.
  now rewrite (mul_opp_r 0.5 volatility), !mul_opp_opp.
Qed.

End McEuropeanRuns.

Section Idempotence.
Context `{TemplateParameters} {State : Type} {Engine : PricingEngine State}
        {MC : MonteCarlo Option_Type}.


End Idempotence.

Section IdempotenceExamples.
Import Stub.

Lemma fixed_engine_repeats
      (prepare : GenericEngine unit -> GenericEngine unit)
      (e : GenericEngine unit) :
  repeats (Engine := fixed_engine) prepare e.
Proof.
  intros e1 C. eexists. split; [reflexivity|].
  injection C as <-. reflexivity.
Qed.



End IdempotenceExamples.

(** ** What the constructor of [McEuropean] configures and checks *)

Section McEuropeanProperties.
Context {Option_Type : Type} `{MonteCarlo Option_Type}.

(** C8.  The constructor of [McEuropean] gives a pricer exactly when
    the three constructions it makes succeed: the path generator from
    the drift [riskFreeRate - dividendYield - 0.5 * volatility *
    volatility], the variance [volatility * volatility], the residual
    time, the number [1] and the seed of the caller; the path pricer from
    the option type, the underlying, the strike, the discount
    [exp(- riskFreeRate * residualTime)] and the antithetic-variance
    flag; and the model from these two and an empty accumulator.  The
    pricer holds that model. *)
Theorem McEuropean_new_configures
        (type : Option_Type) (underlying strike : double)
        (dividendYield riskFreeRate : Rate)
        (residualTime volatility : double)
        (antitheticVariance : bool) (seed : Z) (mc : McEuropean) :
  McEuropean_new type underlying strike dividendYield riskFreeRate
                 residualTime volatility antitheticVariance seed
    = Constructed mc
  <->
  exists (pathGenerator : GaussianPathGenerator)
         (euroPathPricer : PathPricer) (model : MonteCarloModel),
    GaussianPathGenerator_new
      (riskFreeRate - dividendYield - 0.5 * volatility * volatility)
      (volatility * volatility) residualTime 1 seed
      = Constructed pathGenerator /\
    EuropeanPathPricer_new type underlying strike
                           (QL_EXP (- riskFreeRate * residualTime))
                           antitheticVariance
      = Constructed euroPathPricer /\
    MonteCarloModel_new (Some pathGenerator) (Some euroPathPricer)
                        Statistics_new
      = Constructed model /\
    mc = {| mcModel_ := Some model |}.
Proof.
  unfold McEuropean_new. split.
  - destruct (GaussianPathGenerator_new _ _ _ _ _) as [pathGenerator|];
      [|discriminate].
    destruct (EuropeanPathPricer_new _ _ _ _ _) as [euroPathPricer|];
      [|discriminate].
    destruct (MonteCarloModel_new _ _ _) as [model|] eqn:E; [|discriminate].
    intros [= <-]. exists pathGenerator, euroPathPricer, model.
    repeat split; trivial.
  - intros (pathGenerator & euroPathPricer & model & -> & -> & -> & ->).
    reflexivity.
Qed.

(** C9 (as amended).  The constructor of [McEuropean] checks neither
    the residual time nor the volatility: it throws exactly when one of
    the three constructions it makes throws, with that error; and since
    the volatility reaches them through its square only, a negative
    volatility has the outcome of its absolute value. *)
Theorem McEuropean_new_validates_nothing
        (type : Option_Type) (underlying strike : double)
        (dividendYield riskFreeRate : Rate)
        (residualTime volatility : double)
        (antitheticVariance : bool) (seed : Z) :
  (forall what : string,
      McEuropean_new type underlying strike dividendYield riskFreeRate
                     residualTime volatility antitheticVariance seed
        = Construction_failed what
      <->
      let generator :=
        GaussianPathGenerator_new
          (riskFreeRate - dividendYield - 0.5 * volatility * volatility)
          (volatility * volatility) residualTime 1 seed in
      let pricer :=
        EuropeanPathPricer_new type underlying strike
                               (QL_EXP (- riskFreeRate * residualTime))
                               antitheticVariance in
      generator = Construction_failed what \/
      (exists pathGenerator,
          generator = Constructed pathGenerator /\
          (pricer = Construction_failed what \/
           exists euroPathPricer,
             pricer = Constructed euroPathPricer /\
             MonteCarloModel_new (Some pathGenerator) (Some euroPathPricer)
                                 Statistics_new
               = Construction_failed what)))
  /\
  McEuropean_new type underlying strike dividendYield riskFreeRate
                 residualTime (- volatility) antitheticVariance seed =
  McEuropean_new type underlying strike dividendYield riskFreeRate
                 residualTime volatility antitheticVariance seed.
Proof.
  split.
  - intro what. apply McEuropean_new_failed_iff.
  - apply McEuropean_new_opp_volatility.
Qed.

End McEuropeanProperties.

Section McEuropeanExamples.
Import Stub.

(** The European call of the scenario: underlying 100, strike 100,
    risk-free rate 5%, no dividend, one year, volatility 20%, antithetic
    paths, seed 42. *)
Example McEuropean_new_call :
  McEuropean_new Call 100 100 0 0.05 1 0.2 true 42 =
  Constructed
    {| mcModel_ :=
         Some {| pathGenerator_ :=
                   Some {| drift := 0.05 - 0 - 0.5 * 0.2 * 0.2;
                           variance := 0.2 * 0.2;
                           length := 1; steps := 1; seed_ := 42 |};
                 pathPricer_ :=
                   Some {| type_ := Call; underlying_ := 100;
                           strike_ := 100;
                           discount_ := exp_polynomial (- 0.05 * 1);
                           antitheticVariance_ := true |};
                 sampleAccumulator_ := [] |} |}.
Proof. reflexivity. Qed.

(** With a path generator that requires a positive length and a
    non-negative variance, a negative and a zero volatility construct. *)
Example McEuropean_new_negative_volatility :
  McEuropean_new Call 100 100 0 0.05 1 (-0.2) true 42 =
  McEuropean_new Call 100 100 0 0.05 1 0.2 true 42.
Proof. reflexivity. Qed.

Example McEuropean_new_zero_volatility :
  exists mc, McEuropean_new Call 100 100 0 0.05 1 0 true 42 = Constructed mc.
Proof. eexists. reflexivity. Qed.

(** The error on a zero residual time is the path generator's. *)
Example McEuropean_new_zero_time :
  McEuropean_new Call 100 100 0 0.05 0 0.2 true 42 =
  Construction_failed "PathGenerator: length must be > 0".
Proof. reflexivity. Qed.

(** C9 as stated fails: whatever the constructors of the path
    generator, the path pricer and the model do, the constructor of
    [McEuropean] cannot both throw on every zero or negative volatility
    and construct the European call of the scenario, because the
    volatilities [-0.2] and [0.2] have the same outcome. *)
Lemma McEuropean_new_accepts_negative_volatility :
  ~ exists MC : MonteCarlo OptionType,
      rejects_nonpositive (H := MC) /\
      exists mc,
        McEuropean_new (H := MC) Call 100 100 0 0.05 1 0.2 true 42
          = Constructed mc.
Proof.
  intros (MC & R & mc & C).
  destruct (R Call 100 100 0 0.05 1 (- (0.2)) true 42%Z) as [what F].
  { right. reflexivity. }
  rewrite (McEuropean_new_opp_volatility (H := MC)) in F.
  rewrite C in F. discriminate.
Qed.

End McEuropeanExamples.

(** * Further properties *)

(** ** More facts on binary64 comparisons *)

Section MoreFloatFacts.

Lemma ltb_true_numbers (x y : float) :
  (x <? y) = true -> is_nan x = false /\ is_nan y = false.
Proof.
  intro L. rewrite ltb_spec in L. unfold SFltb in L.
  split.
  - destruct (is_nan x) eqn:N; [|reflexivity].
    apply is_nan_iff in N. rewrite N in L. discriminate.
  - destruct (is_nan y) eqn:N; [|reflexivity].
    apply is_nan_iff in N. rewrite N in L.
    destruct (Prim2SF x); discriminate.
Qed.

Lemma leb_true_numbers (x y : float) :
  (x <=? y) = true -> is_nan x = false /\ is_nan y = false.
Proof.
  intro L. rewrite leb_spec in L. unfold SFleb in L.
  split.
  - destruct (is_nan x) eqn:N; [|reflexivity].
    apply is_nan_iff in N. rewrite N in L. discriminate.
  - destruct (is_nan y) eqn:N; [|reflexivity].
    apply is_nan_iff in N. rewrite N in L.
    destruct (Prim2SF x); discriminate.
Qed.

(** What is not below zero has nothing below zero above it. *)
Lemma leb_zero_trans (x y : float) :
  (0 <=? x) = true -> (x <=? y) = true -> (0 <=? y) = true.
Proof.
  rewrite !leb_spec. unfold SFleb.
  change (Prim2SF 0) with (S754_zero false).
  destruct (Prim2SF x) as [sx|sx| |sx mx ex],
           (Prim2SF y) as [sy|sy| |sy my ey]; simpl;
    try discriminate; try reflexivity;
    destruct sx; try discriminate; destruct sy; try discriminate;
    reflexivity.
Qed.

(** A number compares equal to itself. *)
Lemma eqb_refl_number (x : float) : is_nan x = false -> (x =? x) = true.
Proof.
  unfold is_nan. now destruct (x =? x).
Qed.

Lemma sub_zero_r (x : float) : x - 0 = x.
Proof.
  apply Prim2SF_inj. rewrite sub_spec.
  change (Prim2SF 0) with (S754_zero false).
  destruct (Prim2SF x) as [[|]|[|]| |s m e]; reflexivity.
Qed.

End MoreFloatFacts.

(** ** Arguments as constructed and as validated *)

Section ArgumentsProperties.
Context `{TemplateParameters}.

(** X1.  Forward-option arguments as their constructor leaves them, with
    a null moneyness and a null reset date, never validate, whatever
    their base part: either the base [validate()] throws, or the check of
    the moneyness does, before the one of the reset date.  This needs a
    [Null<double>()] that compares equal to itself. *)
Theorem ForwardOptionArguments_new_does_not_validate (b : ArgumentsType) :
  is_nan Null_double = false ->
  raises (ForwardOptionArguments_validate (ForwardOptionArguments_new b)) /\
  (ArgumentsType_validate b = Passed ->
   ForwardOptionArguments_validate (ForwardOptionArguments_new b) =
     Failed "ForwardOptionArguments::validate() : null moneyness given").
Proof.
  intro N. apply eqb_refl_number in N.
  unfold ForwardOptionArguments_validate, ForwardOptionArguments_new,
    QL_REQUIRE, raises.
  cbn. rewrite N. cbn.
  destruct (ArgumentsType_validate b) as [|what].
  - split; [eexists|]; reflexivity.
  - split; [now exists what | discriminate].
Qed.

(** X2.  Arguments that validate hold numbers: the base part validates,
    the moneyness is positive and neither null nor a NaN, the reset date
    is not null, the reset time lies between zero and the maturity, and
    so the maturity is not negative; none of the three is a NaN. *)
Theorem validated_arguments_are_numbers (a : ForwardOptionArguments) :
  ForwardOptionArguments_validate a = Passed ->
  ArgumentsType_validate a = Passed /\
  (moneyness a =? Null_double) = false /\
  (0 <? moneyness a) = true /\
  resetDate a <> Null_Date /\
  (0 <=? resetTime_of a) = true /\
  (resetTime_of a <=? maturity a) = true /\
  (0 <=? maturity a) = true /\
  is_nan (moneyness a) = false /\
  is_nan (resetTime_of a) = false /\
  is_nan (maturity a) = false.
Proof.
  intro V.
  assert (B : ArgumentsType_validate a = Passed).
  { unfold ForwardOptionArguments_validate in V.
    now destruct (ArgumentsType_validate a). }
  rewrite (ForwardOptionArguments_validate_cases a B) in V.
  destruct (moneyness a =? Null_double); [discriminate|].
  destruct (0 <? moneyness a) eqn:M; [|discriminate].
  destruct (Date_neqb (resetDate a) Null_Date) eqn:D; [|discriminate].
  destruct (0 <=? resetTime_of a) eqn:R; [|discriminate].
  destruct (resetTime_of a <=? maturity a) eqn:L; [|discriminate].
  destruct (ltb_true_numbers _ _ M) as [_ Nm].
  destruct (leb_true_numbers _ _ L) as [Nr Nt].
  repeat split; trivial.
  - intro E. apply Date_neqb_false in E. congruence.
  - exact (leb_zero_trans _ _ R L).
Qed.

End ArgumentsProperties.

Section ArgumentsExamples.
Import Stub.

(** X1 at the stand-in market, whose null double is the largest float
    of single precision. *)
Lemma ForwardOptionArguments_new_does_not_validate_witness :
  is_nan Null_double = false /\
  raises (ForwardOptionArguments_validate
            (ForwardOptionArguments_new (base Scenario.forward_call))).
Proof.
  split; [reflexivity|].
  apply (ForwardOptionArguments_new_does_not_validate
           (base Scenario.forward_call)).
  reflexivity.
Defined.

(** X2 at the forward-starting call of the scenario. *)
Lemma validated_arguments_are_numbers_witness :
  ForwardOptionArguments_validate Scenario.forward_call = Passed /\
  (0 <=? maturity Scenario.forward_call) = true /\
  is_nan (resetTime_of Scenario.forward_call) = false.
Proof.
  assert (V : ForwardOptionArguments_validate Scenario.forward_call = Passed)
    by reflexivity.
  split; [exact V|].
  destruct (validated_arguments_are_numbers Scenario.forward_call V)
    as (_ & _ & _ & _ & _ & _ & T & _ & R & _).
  split; assumption.
Defined.

End ArgumentsExamples.

(** ** What [calculate()] keeps, throws and leaves undefined *)

Section CalculateOutcomes.
Context `{TemplateParameters} {State : Type} {Engine : PricingEngine State}.

Lemma getOriginalResults_cases (fe : ForwardEngine State) :
  (exists fe', ForwardEngine_getOriginalResults fe = Returns tt fe' /\
               arguments_ fe' = arguments_ fe /\
               originalArguments_ fe' = originalArguments_ fe /\
               originalResults_ fe' = originalResults_ fe /\
               originalResults_ fe = to_engine_member) \/
  (ForwardEngine_getOriginalResults fe = Undefined null_pointer_dereference /\
   originalResults_ fe = null).
Proof.
  destruct (originalResults_ fe) eqn:P.
  - right. split; [now apply getOriginalResults_null | reflexivity].
  - left. eexists. split; [now apply getOriginalResults_run|].
    now destruct fe.
Qed.

Lemma performance_getOriginalResults_cases (fe : ForwardEngine State) :
  (exists fe', ForwardPerformanceEngine_getOriginalResults fe = Returns tt fe' /\
               arguments_ fe' = arguments_ fe /\
               originalArguments_ fe' = originalArguments_ fe /\
               originalResults_ fe' = originalResults_ fe /\
               originalResults_ fe = to_engine_member) \/
  (exists ub, ForwardPerformanceEngine_getOriginalResults fe = Undefined ub /\
              originalResults_ fe = null).
Proof.
  destruct (originalResults_ fe) eqn:P.
  - right. eexists.
    split; [now apply performance_getOriginalResults_null | reflexivity].
  - left. eexists. split; [now apply performance_getOriginalResults_run|].
    now destruct fe.
Qed.

(** X3.  Whatever state [calculate()] of either decorator leaves, on
    return or on a throw, the decorator's own arguments and its two views
    of the wrapped engine are as they were. *)
Theorem calculate_keeps_arguments (fe fe' : ForwardEngine State) :
  ForwardEngine_calculate fe = Returns tt fe' \/
  (exists what, ForwardEngine_calculate fe = Throws what fe') \/
  ForwardPerformanceEngine_calculate fe = Returns tt fe' \/
  (exists what, ForwardPerformanceEngine_calculate fe = Throws what fe') ->
  arguments_ fe' = arguments_ fe /\
  originalArguments_ fe' = originalArguments_ fe /\
  originalResults_ fe' = originalResults_ fe.
Proof.
  intros O.
  destruct (originalArguments_ fe) eqn:P.
  { rewrite (ForwardEngine_calculate_null fe P),
      (ForwardPerformanceEngine_calculate_null fe P) in O.
    destruct O as [O|[[w O]|[O|[w O]]]]; discriminate. }
  rewrite (ForwardEngine_calculate_run fe P),
    (ForwardPerformanceEngine_calculate_run fe P) in O.
  rewrite <- P. unfold then_calculate in O.
  destruct (ArgumentsType_validate _).
  2:{ destruct O as [O|[[w O]|[O|[w O]]]]; try discriminate;
        injection O as _ <-; now destruct fe. }
  destruct O as [O|[[w O]|[O|[w O]]]].
  - destruct (calculate _) as [[] e'|w e'|ub]; try discriminate.
    destruct (getOriginalResults_cases (set_originalEngine_ e' fe))
      as [(s & R & A & Pa & Pr & _)|[U _]]; rewrite O in *;
      [|discriminate].
    injection R as <-. now destruct fe.
  - destruct (calculate _) as [[] e'|w' e'|ub]; try discriminate.
    + destruct (getOriginalResults_cases (set_originalEngine_ e' fe))
        as [(s & R & _)|[U _]]; rewrite O in *; discriminate.
    + injection O as _ <-. now destruct fe.
  - destruct (calculate _) as [[] e'|w e'|ub]; try discriminate.
    destruct (performance_getOriginalResults_cases
                (set_originalEngine_ e' fe))
      as [(s & R & A & Pa & Pr & _)|(ub & U & _)]; rewrite O in *;
      [|discriminate].
    injection R as <-. now destruct fe.
  - destruct (calculate _) as [[] e'|w' e'|ub]; try discriminate.
    + destruct (performance_getOriginalResults_cases
                  (set_originalEngine_ e' fe))
        as [(s & R & _)|(ub & U & _)]; rewrite O in *; discriminate.
    + injection O as _ <-. now destruct fe.
Qed.


(** X5.  A decorator constructed, by either constructor, around an
    engine whose [arguments()] and [results()] point to its own members
    has both views resolved; in every state with these views, the
    behaviour of [ForwardEngine::calculate()] is undefined only where that
    of the wrapped [calculate()] is, and so is the behaviour of
    [ForwardPerformanceEngine::calculate()], whatever the underlying. *)
Theorem constructed_decorator_is_defined (e : GenericEngine State) :
  arguments (PricingEngine := Engine) = engine_member ->
  results (PricingEngine := Engine) = engine_member ->
  exists fe0 : ForwardEngine State,
    ForwardEngine_new (Some e) = Constructed fe0 /\
    ForwardPerformanceEngine_new (Some e) = Constructed fe0 /\
    originalEngine_ fe0 = e /\
    forall fe : ForwardEngine State,
      originalArguments_ fe = originalArguments_ fe0 ->
      originalResults_ fe = originalResults_ fe0 ->
      let a' := original_arguments_for (arguments_ fe) in
      ((forall ub, calculate (set_engine_arguments_
                                a' (reset (originalEngine_ fe)))
                   <> Undefined ub) ->
       forall ub, ForwardEngine_calculate fe <> Undefined ub)
      /\
      ((forall ub, calculate (set_engine_arguments_ a' (originalEngine_ fe))
                   <> Undefined ub) ->
       forall ub, ForwardPerformanceEngine_calculate fe <> Undefined ub).
Proof.
  intros A R. eexists. split; [reflexivity|]. split; [reflexivity|].
  split; [reflexivity|].
  intros fe Pa Pr. cbn in Pa, Pr. rewrite A in Pa. rewrite R in Pr.
  cbn in Pa, Pr. split.
  - intros D ub. rewrite (ForwardEngine_calculate_run fe Pa).
    destruct (ArgumentsType_validate _); [|discriminate].
    unfold then_calculate.
    destruct (calculate _) as [[] e'|w e'|ub'] eqn:C; try discriminate.
    + rewrite getOriginalResults_run by (now destruct fe). discriminate.
    + now destruct (D ub').
  - intros D ub. rewrite (ForwardPerformanceEngine_calculate_run fe Pa).
    destruct (ArgumentsType_validate _); [|discriminate].
    unfold then_calculate.
    destruct (calculate _) as [[] e'|w e'|ub'] eqn:C; try discriminate.
    + rewrite performance_getOriginalResults_run by (now destruct fe).
      discriminate.
    + now destruct (D ub').
Qed.

End CalculateOutcomes.

(** ** How the transfers compose *)

Section Transfers.
Context `{TemplateParameters} {State : Type} {Engine : PricingEngine State}.

Local Open Scope method_scope.

(** X6.  [setOriginalArguments()] called twice in a row has the outcome
    of one call: the second call writes the same wrapped arguments and
    validates them again. *)
Theorem setOriginalArguments_twice (fe : ForwardEngine State) :
  (ForwardEngine_setOriginalArguments ;; ForwardEngine_setOriginalArguments)
    fe
  = ForwardEngine_setOriginalArguments fe.
Proof.
  unfold bind.
  destruct (originalArguments_ fe) eqn:P.
  - now rewrite (setOriginalArguments_null fe P).
  - rewrite (setOriginalArguments_run fe P).
    destruct (ArgumentsType_validate _) eqn:V; [|reflexivity].
    rewrite setOriginalArguments_run by (now destruct fe).
    destruct fe as [a r e pa pr].
    unfold with_original_arguments in *. cbn in *. now rewrite V.
Qed.

(** X7.  Each [getOriginalResults()] called twice in a row has the
    outcome of one call: it reads the wrapped results, the decorator's
    arguments and its own value just written, and nothing else of the
    results it overwrites. *)
Theorem getOriginalResults_twice (fe : ForwardEngine State) :
  (ForwardEngine_getOriginalResults ;; ForwardEngine_getOriginalResults) fe
  = ForwardEngine_getOriginalResults fe
  /\
  (ForwardPerformanceEngine_getOriginalResults ;;
   ForwardPerformanceEngine_getOriginalResults) fe
  = ForwardPerformanceEngine_getOriginalResults fe.
Proof.
  unfold bind. split.
  - destruct (originalResults_ fe) eqn:P.
    + now rewrite (getOriginalResults_null fe P).
    + rewrite (getOriginalResults_run fe P).
      rewrite getOriginalResults_run by (now destruct fe).
      now destruct fe.
  - destruct (originalResults_ fe) eqn:P.
    + now rewrite (performance_getOriginalResults_null fe P).
    + rewrite (performance_getOriginalResults_run fe P).
      rewrite performance_getOriginalResults_run by (now destruct fe).
      now destruct fe.
Qed.

(** X8.  When [ForwardEngine::calculate()] returns, the wrapped engine
    has priced, from the state its [reset()] left, the option struck at
    [moneyness * underlying] on the implied curves, and the decorator
    holds that engine and, as its value and delta, the wrapped value and
    the wrapped delta corrected by the strike sensitivity, both discounted
    on the dividend curve to the reset date; its gamma is zero. *)
Theorem ForwardEngine_calculate_prices (fe fe' : ForwardEngine State) :
  ForwardEngine_calculate fe = Returns tt fe' ->
  let a := arguments_ fe in
  let discQ := discount (dividendTS a) (resetDate a) in
  exists e2 e3 : GenericEngine State,
    underlying (engine_arguments_ e2) = underlying a /\
    strike (engine_arguments_ e2) = moneyness a * underlying a /\
    dividendTS (engine_arguments_ e2) =
      ImpliedTermStructure (dividendTS a) (resetDate a) (resetDate a) /\
    riskFreeTS (engine_arguments_ e2) =
      ImpliedTermStructure (riskFreeTS a) (resetDate a) (resetDate a) /\
    engine_results_ e2 = engine_results_ (reset (originalEngine_ fe)) /\
    engine_state e2 = engine_state (reset (originalEngine_ fe)) /\
    ArgumentsType_validate (engine_arguments_ e2) = Passed /\
    calculate e2 = Returns tt e3 /\
    originalEngine_ fe' = e3 /\
    value (results_ fe') = discQ * value (engine_results_ e3) /\
    delta (results_ fe') =
      discQ * (delta (engine_results_ e3) +
               moneyness a * strikeSensitivity (engine_results_ e3)) /\
    gamma (results_ fe') = 0.
Proof.
  intros R a discQ.
  apply ForwardEngine_calculate_returns_iff in R.
  destruct R as (P & Q & V & e3 & C & ->).
  exists (set_engine_arguments_ (original_arguments_for (arguments_ fe))
                                (reset (originalEngine_ fe))), e3.
  repeat split; try exact C; try exact V; now destruct fe.
Qed.

(** X9.  When [ForwardPerformanceEngine::calculate()] returns, the
    wrapped engine has priced the same option from the state it was left
    in, results included, and the decorator holds that engine and, as its
    value, the wrapped value times the quotient of the risk-free discount
    to the reset date by the underlying, a plain division of doubles; its
    delta and its gamma are zero. *)
Theorem ForwardPerformanceEngine_calculate_prices
        (fe fe' : ForwardEngine State) :
  ForwardPerformanceEngine_calculate fe = Returns tt fe' ->
  let a := arguments_ fe in
  let discR := discount (riskFreeTS a) (resetDate a) / underlying a in
  exists e2 e3 : GenericEngine State,
    underlying (engine_arguments_ e2) = underlying a /\
    strike (engine_arguments_ e2) = moneyness a * underlying a /\
    engine_results_ e2 = engine_results_ (originalEngine_ fe) /\
    engine_state e2 = engine_state (originalEngine_ fe) /\
    ArgumentsType_validate (engine_arguments_ e2) = Passed /\
    calculate e2 = Returns tt e3 /\
    originalEngine_ fe' = e3 /\
    value (results_ fe') = discR * value (engine_results_ e3) /\
    delta (results_ fe') = 0 /\
    gamma (results_ fe') = 0.
Proof.
  intros R a discR.
  apply ForwardPerformanceEngine_calculate_returns_iff in R.
  destruct R as (P & Q & V & e3 & C & ->).
  exists (set_engine_arguments_ (original_arguments_for (arguments_ fe))
                                (originalEngine_ fe)), e3.
  repeat split; try exact C; try exact V; now destruct fe.
Qed.

End Transfers.

(** ** The pricer at a zero volatility *)

Section ZeroVolatility.
Context {Option_Type : Type} `{MonteCarlo Option_Type}.

Lemma square_of_zero (v : float) :
  (v =? 0) = true -> v * v = 0 /\ 0.5 * v * v = 0.
Proof.
  intro Z. destruct (eqb_zero_inv v Z) as [s E].
  split; apply Prim2SF_inj; rewrite !mul_spec, E;
    change (Prim2SF 0) with (S754_zero false); destruct s; reflexivity.
Qed.

(** X10.  With a volatility of zero, of either sign, the constructor of
    [McEuropean] constructs the path generator with the drift
    [riskFreeRate - dividendYield] exactly and the variance zero; the
    pricer is constructed exactly when that construction and the two
    others succeed. *)
Theorem McEuropean_new_zero_volatility_drift
        (type : Option_Type) (underlying strike : double)
        (dividendYield riskFreeRate : Rate)
        (residualTime volatility : double)
        (antitheticVariance : bool) (seed : Z) (mc : McEuropean) :
  (volatility =? 0) = true ->
  McEuropean_new type underlying strike dividendYield riskFreeRate
                 residualTime volatility antitheticVariance seed
    = Constructed mc
  <->
  exists (pathGenerator : GaussianPathGenerator)
         (euroPathPricer : PathPricer) (model : MonteCarloModel),
    GaussianPathGenerator_new (riskFreeRate - dividendYield) 0
                              residualTime 1 seed
      = Constructed pathGenerator /\
    EuropeanPathPricer_new type underlying strike
                           (QL_EXP (- riskFreeRate * residualTime))
                           antitheticVariance
      = Constructed euroPathPricer /\
    MonteCarloModel_new (Some pathGenerator) (Some euroPathPricer)
                        Statistics_new
      = Constructed model /\
    mc = {| mcModel_ := Some model |}.
Proof.
  intro Z. destruct (square_of_zero volatility Z) as [V D].
  rewrite McEuropean_new_constructed_iff, V, D, sub_zero_r. reflexivity.
Qed.

End ZeroVolatility.

(** ** Examples of the further properties *)

Section FurtherExamples.
Import Stub.

(** X3 and X4 at the option on an underlying at zero, which the wrapped
    [validate()] rejects. *)
Lemma calculate_keeps_arguments_witness :
  exists (what : string) (fe' : ForwardEngine (Spied unit)),
    ForwardEngine_calculate (Engine := spy (Engine := fixed_engine))
                            Scenario.rejected = Throws what fe' /\
    arguments_ fe' = arguments_ Scenario.rejected.
Proof.
  assert (O : exists what fe',
               ForwardEngine_calculate (Engine := spy (Engine := fixed_engine))
                                       Scenario.rejected = Throws what fe').
  { rewrite ForwardEngine_calculate_run by reflexivity.
    eexists. eexists. reflexivity. }
  destruct O as (what & fe' & O). exists what, fe'. split; [exact O|].
  apply (calculate_keeps_arguments
           (Engine := spy (Engine := fixed_engine)) Scenario.rejected fe').
  right. left. exists what. exact O.
Defined.


(** X5 at the engine with fixed results. *)
Lemma constructed_decorator_is_defined_witness :
  arguments (PricingEngine := fixed_engine) = engine_member /\
  results (PricingEngine := fixed_engine) = engine_member /\
  exists fe0 : ForwardEngine unit,
    ForwardEngine_new (Engine := fixed_engine) (Some (Scenario.fresh_engine tt))
      = Constructed fe0 /\
    originalArguments_ fe0 = to_engine_member /\
    originalResults_ fe0 = to_engine_member.
Proof.
  split; [reflexivity|]. split; [reflexivity|].
  destruct (constructed_decorator_is_defined
              (Engine := fixed_engine) (Scenario.fresh_engine tt)
              eq_refl eq_refl) as (fe0 & N & _ & _ & _).
  exists fe0. split; [exact N|].
  injection N as <-. split; reflexivity.
Defined.

(** X8 and X9 at the forward-starting call of the scenario. *)
Lemma ForwardEngine_calculate_prices_witness :
  exists fe' : ForwardEngine unit,
    ForwardEngine_calculate (Engine := fixed_engine) Scenario.priced
      = Returns tt fe' /\
    value (results_ fe') = 0.98 * 10 /\
    gamma (results_ fe') = 0.
Proof.
  assert (R : exists fe' : ForwardEngine unit,
               ForwardEngine_calculate (Engine := fixed_engine)
                                       Scenario.priced = Returns tt fe').
  { eexists. apply ForwardEngine_calculate_returns_iff.
    repeat split; try reflexivity. eexists. split; reflexivity. }
  destruct R as [fe' R]. exists fe'. split; [exact R|].
  destruct (ForwardEngine_calculate_prices
              (Engine := fixed_engine) Scenario.priced fe' R)
    as (e2 & e3 & _ & _ & _ & _ & _ & _ & _ & C & _ & V & _ & G).
  injection C as <-. split; [exact V | exact G].
Defined.

Lemma ForwardPerformanceEngine_calculate_prices_witness :
  exists fe' : ForwardEngine unit,
    ForwardPerformanceEngine_calculate (Engine := fixed_engine)
                                       Scenario.priced = Returns tt fe' /\
    value (results_ fe') = 0.975 / 100 * 10 /\
    delta (results_ fe') = 0.
Proof.
  assert (R : exists fe' : ForwardEngine unit,
               ForwardPerformanceEngine_calculate
                 (Engine := fixed_engine) Scenario.priced = Returns tt fe').
  { eexists. apply ForwardPerformanceEngine_calculate_returns_iff.
    repeat split; try reflexivity. eexists. split; reflexivity. }
  destruct R as [fe' R]. exists fe'. split; [exact R|].
  destruct (ForwardPerformanceEngine_calculate_prices
              (Engine := fixed_engine) Scenario.priced fe' R)
    as (e2 & e3 & _ & _ & _ & _ & _ & C & _ & V & D & _).
  injection C as <-. split; [exact V | exact D].
Defined.

(** The order of the calls at an option that the wrapped [validate()]
    rejects: [reset()] alone for the forward engine, none for the
    performance engine. *)
Lemma calculate_call_order_invalid_witness :
  originalArguments_ Scenario.rejected = to_engine_member /\
  ArgumentsType_validate
    (original_arguments_for (arguments_ Scenario.rejected))
    = Failed "negative or zero underlying given" /\
  (exists fe' : ForwardEngine (Spied unit),
     ForwardEngine_calculate (Engine := spy (Engine := fixed_engine))
                             Scenario.rejected
       = Throws "negative or zero underlying given" fe' /\
     calls (engine_state (originalEngine_ fe')) = [called_reset]) /\
  (exists fe' : ForwardEngine (Spied unit),
     ForwardPerformanceEngine_calculate
       (Engine := spy (Engine := fixed_engine)) Scenario.rejected
       = Throws "negative or zero underlying given" fe' /\
     calls (engine_state (originalEngine_ fe')) = []).
Proof.
  assert (V : ArgumentsType_validate
                (original_arguments_for (arguments_ Scenario.rejected))
              = Failed "negative or zero underlying given") by reflexivity.
  destruct (calculate_call_order_invalid (Engine := fixed_engine)
              Scenario.rejected _ eq_refl V) as [F P].
  split; [reflexivity|]. split; [exact V|]. split.
  - eexists. split; [exact F | reflexivity].
  - eexists. split; [exact P | reflexivity].
Defined.

(** X10 at the European call of the scenario with a volatility of zero. *)
Lemma McEuropean_new_zero_volatility_drift_witness :
  (0 =? 0) = true /\
  exists (mc : McEuropean) (pathGenerator : GaussianPathGenerator),
    McEuropean_new Call 100 100 0 0.05 1 0 true 42 = Constructed mc /\
    GaussianPathGenerator_new (0.05 - 0) 0 1 1 42 = Constructed pathGenerator.
Proof.
  split; [reflexivity|].
  assert (C : exists mc,
               McEuropean_new Call 100 100 0 0.05 1 0 true 42 = Constructed mc)
    by (eexists; reflexivity).
  destruct C as [mc C]. exists mc.
  destruct (proj1 (McEuropean_new_zero_volatility_drift
                     Call 100 100 0 0.05 1 0 true 42 mc eq_refl) C)
    as (pg & _ & _ & G & _).
  exists pg. split; [exact C | exact G].
Defined.

End FurtherExamples.

(** ** The bounds of the reset time *)

Section ResetBounds.
Context `{TemplateParameters}.

Lemma eqb_true_leb (x y : float) : (x =? y) = true -> (x <=? y) = true.
Proof.
  rewrite FloatAxioms.eqb_spec, leb_spec. unfold SFeqb, SFleb.
  now destruct (SFcompare _ _) as [[| |]|].
Qed.

Lemma leb_of_zero (x y : float) :
  (x =? 0) = true -> (0 <=? y) = true -> (x <=? y) = true.
Proof.
  intros Z. destruct (eqb_zero_inv x Z) as [s E].
  rewrite !leb_spec, E. change (Prim2SF 0) with (S754_zero false).
  now destruct (Prim2SF y).
Qed.

Lemma zero_leb_of_zero (x : float) : (x =? 0) = true -> (0 <=? x) = true.
Proof.
  intros Z. destruct (eqb_zero_inv x Z) as [s E].
  rewrite leb_spec, E. reflexivity.
Qed.

(** X12.  The bounds on the reset time are inclusive: with valid base
    fields, a moneyness that is set and positive and a reset date that is
    set, [validate()] returns when the reset time is zero and the maturity
    is not negative, and when the reset time is not negative and equals
    the maturity. *)
Theorem ForwardOptionArguments_validate_at_bounds
        (a : ForwardOptionArguments) :
  ArgumentsType_validate a = Passed ->
  (moneyness a =? Null_double) = false ->
  (0 <? moneyness a) = true ->
  resetDate a <> Null_Date ->
  ((resetTime_of a =? 0) = true /\ (0 <=? maturity a) = true) \/
  ((0 <=? resetTime_of a) = true /\
   (resetTime_of a =? maturity a) = true) ->
  ForwardOptionArguments_validate a = Passed.
Proof.
  intros B N M D E.
  rewrite (ForwardOptionArguments_validate_cases a B), N, M. cbn.
  assert (D' : Date_neqb (resetDate a) Null_Date = true).
  { destruct (Date_neqb _ _) eqn:X; [reflexivity|].
    apply Date_neqb_false in X. contradiction. }
  rewrite D'. cbn.
  destruct E as [[Z T]|[R T]].
  - now rewrite (zero_leb_of_zero _ Z), (leb_of_zero _ _ Z T).
  - now rewrite R, (eqb_true_leb _ _ T).
Qed.

End ResetBounds.

Section ResetBoundsExamples.
Import Stub.

(** X12 at the forward-starting call of the scenario with its maturity
    brought back to the reset time. *)
Lemma ForwardOptionArguments_validate_at_bounds_witness :
  (resetTime_of Scenario.forward_call =?
   maturity (set_maturity (resetTime_of Scenario.forward_call)
                          Scenario.forward_call)) = true /\
  ForwardOptionArguments_validate
    (set_base (set_maturity (resetTime_of Scenario.forward_call)
                            Scenario.forward_call)
              Scenario.forward_call) = Passed.
Proof.
  split; [reflexivity|].
  apply ForwardOptionArguments_validate_at_bounds; try reflexivity.
  - discriminate.
  - right. split; reflexivity.
Defined.

End ResetBoundsExamples.
